(** * Job-match explanation service: normalizer, prompt and request handler

    A shallow embedding of [app.py]: the response normalizer
    [normalize_analysis_response], the analysis operation
    [analyze_job_match] with its prompt, and the endpoint [analyze_match].

    Python values that reach the code are decoded JSON, so they are modelled
    by the type [json]; a Python [str] is a sequence of Unicode code points.
    Exceptions are values of an error type threaded through a small monad,
    and the one outbound call is recorded in a trace. *)

From Stdlib Require Import List NArith ZArith Bool String Ascii.
From Stdlib Require Import Numbers.DecimalString.
Import ListNotations.

Set Implicit Arguments.
Local Open Scope N_scope.

(** ** Python strings *)

Module PyStr.

(** A code point, and a [str] as the sequence of its code points. *)
Definition char := N.
Definition pystr := list char.

(** A source literal (ASCII text) as a [str]. *)
Definition lit (s : string) : pystr :=
  List.map N_of_ascii (list_ascii_of_string s).

Fixpoint eqb (a b : pystr) : bool :=
  match a, b with
  | [], [] => true
  | x :: a', y :: b' => (x =? y) && eqb a' b'
  | _, _ => false
  end.

(** [str.isspace] on one character, as [str.strip()] uses it: the ASCII
    table of CPython ([\t \n \v \f \r], 0x1c to 0x1f, space) and the
    code points with the Unicode White_Space property or bidirectional
    type WS, B or S. *)
Definition isspace (c : char) : bool :=
  ((9 <=? c) && (c <=? 13)) || ((28 <=? c) && (c <=? 32))
  || (c =? 0x85) || (c =? 0xA0) || (c =? 0x1680)
  || ((0x2000 <=? c) && (c <=? 0x200A))
  || (c =? 0x2028) || (c =? 0x2029) || (c =? 0x202F)
  || (c =? 0x205F) || (c =? 0x3000).

Fixpoint lstrip (s : pystr) : pystr :=
  match s with
  | [] => []
  | c :: s' => if isspace c then lstrip s' else s
  end.

Definition rstrip (s : pystr) : pystr := rev (lstrip (rev s)).

(** [s.strip()] *)
Definition strip (s : pystr) : pystr := rstrip (lstrip s).

(** Truth value of a [str]: non-empty. *)
Definition nonempty (s : pystr) : bool :=
  match s with [] => false | _ :: _ => true end.

(** [c in s] for a one-character [c]. *)
Definition has_char (c : char) (s : pystr) : bool := existsb (N.eqb c) s.

(** [s.split(sep)] for a one-character separator: every occurrence of
    [sep] ends a part, so the result has one part more than there are
    separators and the empty string gives one empty part. *)
Fixpoint split (sep : char) (s : pystr) : list pystr :=
  match s with
  | [] => [[]]
  | c :: s' =>
      if c =? sep then [] :: split sep s'
      else match split sep s' with
           | p :: ps => (c :: p) :: ps
           | [] => [[c]]
           end
  end.

(** [sep.join(parts)] *)
Fixpoint join (sep : pystr) (parts : list pystr) : pystr :=
  match parts with
  | [] => []
  | [p] => p
  | p :: ps => p ++ sep ++ join sep ps
  end.

Fixpoint starts_with (p s : pystr) : bool :=
  match p, s with
  | [], _ => true
  | _ :: _, [] => false
  | a :: p', b :: s' => (a =? b) && starts_with p' s'
  end.

(** [p in s] for strings: [p] occurs in [s] as a substring. *)
Fixpoint contains (p s : pystr) : bool :=
  starts_with p s ||
  match s with
  | [] => false
  | _ :: s' => contains p s'
  end.

(** Decimal text of an [int]. *)
Definition of_Z (n : Z) : pystr := lit (NilZero.string_of_int (Z.to_int n)).

Definition hex_digit (d : N) : char :=
  if d <? 10 then 48 + d else 87 + d.

(** [width] lowercase hexadecimal digits of [n], most significant first. *)
Fixpoint hex (width : nat) (n : N) : pystr :=
  match width with
  | O => []
  | S w => hex w (n / 16) ++ [hex_digit (n mod 16)]
  end.

End PyStr.

Import PyStr.

Declare Scope py_scope.
Delimit Scope py_scope with py.
Notation "'$' s" := (lit s%string) (at level 1, format "'$' s") : py_scope.
Local Open Scope py_scope.

(** ** Decoded JSON values *)

(** A [float] is identified by the text [repr] gives it ([0.5], [1e+16],
    [nan], [-inf]); that text is never empty, so it is held as its first
    character and the rest. *)
Record pyfloat := PyFloat { float_hd : char; float_tl : pystr }.

Definition float_repr (f : pyfloat) : pystr := float_hd f :: float_tl f.

(** What [json.loads] returns and what [request.json] holds: [None],
    [bool], [int], [float], [str], [list], and [dict] with [str] keys in
    insertion order. *)
#[warnings="-register-all"]
Inductive json :=
| JNull
| JBool (b : bool)
| JInt (n : Z)
| JFloat (f : pyfloat)
| JStr (s : pystr)
| JList (l : list json)
| JObj (d : list (pystr * json)).

Definition dict := list (pystr * json).

(** [type(v).__name__] *)
Definition type_name (v : json) : pystr :=
  match v with
  | JNull => $"NoneType"
  | JBool _ => $"bool"
  | JInt _ => $"int"
  | JFloat _ => $"float"
  | JStr _ => $"str"
  | JList _ => $"list"
  | JObj _ => $"dict"
  end.

(** Truth value of a value, as [not v] and [if v] use it. *)
Definition truthy (v : json) : bool :=
  match v with
  | JNull => false
  | JBool b => b
  | JInt n => negb (n =? 0)%Z
  | JFloat f => negb (eqb (float_repr f) $"0.0" || eqb (float_repr f) $"-0.0")
  | JStr s => nonempty s
  | JList l => match l with [] => false | _ => true end
  | JObj d => match d with [] => false | _ => true end
  end.

Definition is_str (v : json) : bool :=
  match v with JStr _ => true | _ => false end.

Definition is_list (v : json) : bool :=
  match v with JList _ => true | _ => false end.

Fixpoint dict_get (d : dict) (k : pystr) : option json :=
  match d with
  | [] => None
  | (k', v) :: d' => if eqb k' k then Some v else dict_get d' k
  end.

Definition dict_has (d : dict) (k : pystr) : bool :=
  match dict_get d k with Some _ => true | None => false end.

(** [d[k] = v]: an existing key keeps its place, a new key goes last. *)
Fixpoint dict_set (d : dict) (k : pystr) (v : json) : dict :=
  match d with
  | [] => [(k, v)]
  | (k', v') :: d' =>
      if eqb k' k then (k', v) :: d' else (k', v') :: dict_set d' k v
  end.

Definition keys (d : dict) : list pystr := List.map fst d.

(** [d.get(k, default)] on a dict. *)
Definition get_or (d : dict) (k : pystr) (default : json) : json :=
  match dict_get d k with Some x => x | None => default end.

(** ** [repr] and [str] *)

(** The part of the Unicode character database that [repr] of a [str]
    consults: whether a code point above the ASCII range is printable. *)
Class UnicodeTable := { isprintable : char -> bool }.

(** The table for code points below 256, every other one taken as
    non-printable; used to evaluate examples. *)
Definition latin1_table : UnicodeTable :=
  {| isprintable := fun c => (0xA1 <=? c) && (c <=? 0xFF) && negb (c =? 0xAD) |}.

Section Repr.
Context {U : UnicodeTable}.

(** One character inside [repr] of a [str] quoted with [quote]. *)
Definition repr_char (quote c : char) : pystr :=
  if (c =? quote) || (c =? 92) then [92; c]
  else if c =? 9 then $"\t"
  else if c =? 10 then $"\n"
  else if c =? 13 then $"\r"
  else if (c <? 32) || (c =? 0x7F) then $"\x" ++ hex 2 c
  else if c <? 0x7F then [c]
  else if isprintable c then [c]
  else if c <=? 0xFF then $"\x" ++ hex 2 c
  else if c <=? 0xFFFF then $"\u" ++ hex 4 c
  else $"\U" ++ hex 8 c.

(** [repr(s)] for a [str]: single quotes, unless the text holds a single
    quote and no double quote. *)
Definition repr_str (s : pystr) : pystr :=
  let quote := if has_char 39 s && negb (has_char 34 s) then 34 else 39 in
  quote :: flat_map (repr_char quote) s ++ [quote].

Fixpoint py_repr (v : json) : pystr :=
  match v with
  | JNull => $"None"
  | JBool true => $"True"
  | JBool false => $"False"
  | JInt n => of_Z n
  | JFloat f => float_repr f
  | JStr s => repr_str s
  | JList l => $"[" ++ join $", " (List.map py_repr l) ++ $"]"
  | JObj d =>
      $"{" ++ join $", "
        (List.map (fun kv => repr_str (fst kv) ++ $": " ++ py_repr (snd kv)) d)
      ++ $"}"
  end.

(** [str(v)], which is also what an f-string prints for [{v}]. *)
Definition py_str (v : json) : pystr :=
  match v with
  | JStr s => s
  | _ => py_repr v
  end.

End Repr.

(** ** Exceptions *)

Inductive exn_class :=
| AttributeError
| TypeError
| KeyError
| IndexError
| JSONDecodeError
| OtherException.

(** A raised exception: its class and the text [str(e)] gives. *)
Record exn := Exn { exn_type : exn_class; exn_str : pystr }.

Inductive result (A : Type) :=
| Ok (a : A)
| Raise (e : exn).

Arguments Ok {A} a.
Arguments Raise {A} e.

Definition rbind {A B} (m : result A) (k : A -> result B) : result B :=
  match m with
  | Ok a => k a
  | Raise e => Raise e
  end.

Declare Scope result_scope.
Delimit Scope result_scope with result.
Notation "x <- m ;; k" := (rbind m (fun x => k))
  (at level 61, m at next level, right associativity) : result_scope.
Local Open Scope result_scope.

Section Operators.
Context {U : UnicodeTable}.

(** [k in v] for a [str] [k]: key of a dict, element of a list, substring
    of a string; any other value is not iterable. *)
Definition py_in (k : pystr) (v : json) : result bool :=
  match v with
  | JObj d => Ok (dict_has d k)
  | JList l =>
      Ok (existsb (fun x => match x with JStr s => eqb s k | _ => false end) l)
  | JStr s => Ok (contains k s)
  | _ => Raise (Exn TypeError
                  ($"argument of type '" ++ type_name v ++ $"' is not iterable"))
  end.

(** [v[k]] for a [str] [k]. *)
Definition py_getitem (v : json) (k : pystr) : result json :=
  match v with
  | JObj d =>
      match dict_get d k with
      | Some x => Ok x
      | None => Raise (Exn KeyError (repr_str k))
      end
  | JList _ =>
      Raise (Exn TypeError $"list indices must be integers or slices, not str")
  | JStr _ =>
      Raise (Exn TypeError $"string indices must be integers, not 'str'")
  | _ => Raise (Exn TypeError
                  ($"'" ++ type_name v ++ $"' object is not subscriptable"))
  end.

(** [v.get(k, default)]: only a dict has the method. *)
Definition py_get (v : json) (k : pystr) (default : json) : result json :=
  match v with
  | JObj d => Ok (get_or d k default)
  | _ => Raise (Exn AttributeError
                  ($"'" ++ type_name v ++ $"' object has no attribute 'get'"))
  end.

End Operators.

(** ** The response normalizer *)

Section Normalizer.
Context {U : UnicodeTable}.

(** [[s.strip() for s in text.split(sep) if s.strip()]] *)
Definition stripped_parts (sep : char) (text : pystr) : list json :=
  List.map (fun s => JStr (strip s))
    (filter (fun s => nonempty (strip s)) (split sep text)).

(** The block that [normalize_analysis_response] runs for [strengths],
    then for [gaps], then for [recommendations]: the three copies in the
    source differ in the key only. [normalized] is the dict being filled. *)
Definition normalize_list_field
    (key : pystr) (analysis : json) (normalized : dict) : result dict :=
  present <- py_in key analysis ;;
  if present then
    value <- py_getitem analysis key ;;
    match value with
    | JList _ => Ok (dict_set normalized key value)
    | JStr text =>
        if nonempty (strip text) then
          if has_char 10 text then
            Ok (dict_set normalized key (JList (stripped_parts 10 text)))
          else if has_char 59 text then
            Ok (dict_set normalized key (JList (stripped_parts 59 text)))
          else if has_char 44 text then
            Ok (dict_set normalized key (JList (stripped_parts 44 text)))
          else Ok (dict_set normalized key (JList [JStr text]))
        else Ok normalized
    | _ => Ok (dict_set normalized key (JList [JStr (py_str value)]))
    end
  else Ok normalized.

Definition normalize_explanation
    (analysis : json) (normalized : dict) : result dict :=
  present <- py_in $"match_explanation" analysis ;;
  if present then
    value <- py_getitem analysis $"match_explanation" ;;
    if is_str value then Ok (dict_set normalized $"match_explanation" value)
    else Ok (dict_set normalized $"match_explanation" (JStr (py_str value)))
  else Ok normalized.

Definition normalize_analysis_response (analysis : json) : result json :=
  let normalized : dict :=
    [ ($"match_explanation", JStr []);
      ($"strengths", JList []);
      ($"gaps", JList []);
      ($"recommendations", JList []) ] in
  normalized <- normalize_explanation analysis normalized ;;
  normalized <- normalize_list_field $"strengths" analysis normalized ;;
  normalized <- normalize_list_field $"gaps" analysis normalized ;;
  normalized <- normalize_list_field $"recommendations" analysis normalized ;;
  Ok (JObj normalized).

End Normalizer.

(** The three list fields. *)
Definition list_fields : list pystr :=
  [$"strengths"; $"gaps"; $"recommendations"].

(** The splitting policy as the specification words it: the first of
    newline, semicolon, comma that occurs in the text is the delimiter;
    each part is trimmed and the empty ones are dropped; with no delimiter
    the whole text is the only element. *)
Definition spec_split (text : pystr) : list pystr :=
  match find (fun sep => has_char sep text) [10; 59; 44] with
  | Some sep => filter nonempty (List.map strip (split sep text))
  | None => [text]
  end.

(** ** The prompt *)

(** The labelled lines of the job posting: label and key read. *)
Definition job_fields : list (pystr * pystr) :=
  [ ($"Title", $"JobTitle");
    ($"Required Skills", $"Required_Skills");
    ($"Preferred Skills", $"PreferredSkills");
    ($"Qualifications", $"Qualifications");
    ($"Responsibilities", $"Key_Responsibilities");
    ($"Industry", $"Industry");
    ($"Role", $"Role");
    ($"Location", $"JobLocation") ].

(** The labelled lines of the profile. *)
Definition profile_fields : list (pystr * pystr) :=
  [ ($"Headline", $"Headline");
    ($"Technical Skills", $"TechnicalSkillNames");
    ($"Other Skills", $"OtherSkills");
    ($"Experience", $"Experience");
    ($"Job Titles", $"JobTitles");
    ($"Education", $"Education");
    ($"Communication Skills", $"CommunicationNames");
    ($"Leadership Skills", $"LeadershipNames");
    ($"Critical Thinking", $"CriticalThinkingNames");
    ($"Collaboration", $"CollaborationNames");
    ($"Character", $"CharacterNames");
    ($"Creativity", $"CreativityNames");
    ($"Growth Mindset", $"GrowthMindsetNames");
    ($"Mindfulness", $"MindfulnessNames");
    ($"Fortitude", $"FortitudeNames");
    ($"City", $"CityName") ].

(** The lines under MATCHING ALGORITHM COMPONENTS. *)
Definition algorithm_lines : list pystr :=
  [ $"1. Required Skills (30%): Job's Required Skills matched against your Technical Skills and Soft Skills (Character, Collaboration, Communication, Creativity, Critical Thinking, Fortitude, Growth Mindset, Leadership, Mindfulness) and Other Skills";
    $"2. Preferred Skills (15%): Job's Preferred Skills matched against your Technical Skills and Other Skills";
    $"3. Other Skills (10%): Job's Required & Preferred Skills matched against your Technical Skills and Other Skills";
    $"4. Qualifications (15%): Job's Qualifications matched against your Education and Experience";
    $"5. Responsibilities (15%): Job's Key Responsibilities matched against your Experience";
    $"6. Industry (5%): Job's Industry matched against your Industry experience";
    $"7. Role (5%): Job's Role matched against your Job Titles";
    $"8. Location (5%): Job's Location matched against your City" ].

(** The lines that name the keys of the requested JSON. *)
Definition format_lines : list pystr :=
  [ $"- match_explanation: (string) detailed explanation text";
    $"- strengths: (array of strings) list of matching strengths";
    $"- gaps: (array of strings) list of skill/qualification gaps";
    $"- recommendations: (array of strings) list of actionable recommendations" ].

Definition important_line : pystr :=
  $"IMPORTANT: strengths, gaps, and recommendations MUST be arrays of strings, not single strings or other formats.".

(** Each line followed by a newline. *)
Definition unlines (ls : list pystr) : pystr :=
  flat_map (fun l => l ++ [10]) ls.

Section Prompt.
Context {U : UnicodeTable}.

(** One line [- Label: {obj.get('Key', 'N/A')}] of the f-string. *)
Definition field_line (obj : json) (field : pystr * pystr) : result pystr :=
  value <- py_get obj (snd field) (JStr $"N/A") ;;
  Ok ($"- " ++ fst field ++ $": " ++ py_str value).

(** The lines of a block of fields, read in the order written. *)
Fixpoint field_lines (obj : json) (fields : list (pystr * pystr))
  : result (list pystr) :=
  match fields with
  | [] => Ok []
  | f :: fs =>
      l <- field_line obj f ;;
      ls <- field_lines obj fs ;;
      Ok (l :: ls)
  end.

(** The f-string of [analyze_job_match]: the text opens with a newline,
    and the job posting is read before the profile. *)
Definition prompt_text (job_data member_data match_percentage : json)
  : result pystr :=
  job_lines <- field_lines job_data job_fields ;;
  profile_lines <- field_lines member_data profile_fields ;;
  Ok (unlines
        ([ [];
           $"You are an AI career advisor analyzing a job match. Here's the data:";
           [];
           $"JOB POSTING:" ]
         ++ job_lines
         ++ [ []; $"YOUR PROFILE:" ]
         ++ profile_lines
         ++ [ [];
              $"MATCH RESULT:";
              $"- Match Percentage: " ++ py_str match_percentage ++ $"%";
              [];
              $"MATCHING ALGORITHM COMPONENTS:" ]
         ++ algorithm_lines
         ++ [ [];
              $"Based on the above information and matching algorithm, provide a detailed explanation of:";
              $"1. Why your profile received a " ++ py_str match_percentage
                ++ $"% match score for this job";
              $"2. Identify the strongest matching areas between your profile and the job";
              $"3. Identify skills or qualifications gaps you should work on to improve your match percentage";
              $"4. Provide 3-5 specific, actionable recommendations for how you can improve your match score";
              [];
              $"Format your response as a JSON with these keys:" ]
         ++ format_lines
         ++ [ []; important_line ])).

(** Lines 106 to 168 of [analyze_job_match]: the three values taken from
    the request, then the prompt. *)
Definition build_prompt (data : json) : result pystr :=
  member_data <- (d <- py_get data $"data" (JObj []) ;;
                  py_get d $"member" (JObj [])) ;;
  job_data <- (d <- py_get data $"data" (JObj []) ;;
               py_get d $"jobpost" (JObj [])) ;;
  match_percentage <- (d <- py_get data $"data" (JObj []) ;;
                       py_get d $"Matching_Percentage" (JInt 0)) ;;
  prompt_text job_data member_data match_percentage.

End Prompt.

(** *** Reading the weighted components back from a text *)

(** The text before and after the first occurrence of [pat]. *)
Fixpoint cut (pat s : pystr) : option (pystr * pystr) :=
  if starts_with pat s then Some ([], skipn (List.length pat) s)
  else match s with
       | [] => None
       | c :: s' =>
           match cut pat s' with
           | Some (before, after) => Some (c :: before, after)
           | None => None
           end
       end.

(** The number written by a non-empty run of decimal digits. *)
Definition number (s : pystr) : option N :=
  match s with
  | [] => None
  | _ =>
      fold_left
        (fun acc c =>
           match acc with
           | Some n =>
               if (48 <=? c) && (c <=? 57) then Some (10 * n + (c - 48))
               else None
           | None => None
           end)
        s (Some 0)
  end.

(** A line of the shape [k. Name (w%): text] gives [(k, Name, w)]. *)
Definition component_header (line : pystr) : option (N * pystr * N) :=
  match cut $". " line with
  | Some (k, rest) =>
      match cut $" (" rest with
      | Some (name, rest') =>
          match cut $"%): " rest' with
          | Some (w, _) =>
              match number k, number w with
              | Some k', Some w' => Some (k', name, w')
              | _, _ => None
              end
          | None => None
          end
      | None => None
      end
  | None => None
  end.

(** The weighted components a text enumerates, line by line. *)
Definition weighted_components (text : pystr) : list (N * pystr * N) :=
  flat_map
    (fun line =>
       match component_header line with Some c => [c] | None => [] end)
    (split 10 text).

(** [pat] occurs in [s]. *)
Definition occurs_in (pat s : pystr) : Prop :=
  exists before after, s = before ++ pat ++ after.

(** ** The surroundings of a request *)

(** The arguments of [openai_client.chat.completions.create]. *)
Record completion_request := {
  model : pystr;
  system_content : pystr;
  user_content : pystr;
  temperature : pyfloat;
  max_tokens : Z;
  response_format : dict
}.

(** A completion, as far as the code reads it: [message.content] of each
    entry of [response.choices], [None] when the message has no text. *)
Definition completion := list (option pystr).

(** What the process and the libraries provide while one request is
    handled. *)
Record world := {
  (** [os.getenv("OPENAI_API_KEY")], read when the module is loaded *)
  openai_api_key : option pystr;
  (** the value of [request.json], or the exception reading it raises *)
  request_json : result json;
  (** the remote service: a completion, or the exception the call raises *)
  chat_completions_create : completion_request -> result completion;
  (** [json.loads] on a [str] *)
  json_loads : pystr -> result json
}.

(** The outbound calls made, oldest first. *)
Definition trace := list completion_request.

(** A computation that may call the remote service and may raise. *)
Definition io (A : Type) : Type := trace * result A.

Definition ret {A} (a : A) : io A := ([], Ok a).

Definition lift {A} (r : result A) : io A := ([], r).

Definition bind {A B} (m : io A) (k : A -> io B) : io B :=
  match m with
  | (t, Ok a) => let (t', r) := k a in (t ++ t', r)
  | (t, Raise e) => (t, Raise e)
  end.

Definition exn_class_eqb (a b : exn_class) : bool :=
  match a, b with
  | AttributeError, AttributeError
  | TypeError, TypeError
  | KeyError, KeyError
  | IndexError, IndexError
  | JSONDecodeError, JSONDecodeError
  | OtherException, OtherException => true
  | _, _ => false
  end.

(** [try: m except cls: handler], or [except Exception] when [cls] is
    [None]. What [m] sent before it raised stays in the trace. *)
Definition try_except {A}
    (m : io A) (cls : option exn_class) (handler : exn -> io A) : io A :=
  match m with
  | (t, Raise e) =>
      let caught :=
        match cls with
        | None => true
        | Some c => exn_class_eqb c (exn_type e)
        end in
      if caught then let (t', r) := handler e in (t ++ t', r)
      else (t, Raise e)
  | (t, Ok a) => (t, Ok a)
  end.

Declare Scope io_scope.
Delimit Scope io_scope with io.
Notation "x <~ m ;; k" := (bind m (fun x => k))
  (at level 61, m at next level, right associativity) : io_scope.

(** The one call the code makes: fixed arguments around the prompt. *)
Definition the_request (prompt : pystr) : completion_request :=
  {| model := $"gpt-4o";
     system_content :=
       $"You are a job matching AI assistant that provides detailed analysis of job matches.";
     user_content := prompt;
     temperature := PyFloat 48 $".5";
     max_tokens := 1500;
     response_format := [($"type", JStr $"json_object")] |}.

Section Handler.
Context {U : UnicodeTable}.
Variable w : world.

(** [not openai_api_key] *)
Definition key_missing : bool :=
  match openai_api_key w with
  | None => true
  | Some k => negb (nonempty k)
  end.

Definition create (r : completion_request) : io completion :=
  ([r], chat_completions_create w r).

(** [response.choices[0].message.content] *)
Definition first_content (response : completion) : result json :=
  match response with
  | [] => Raise (Exn IndexError $"list index out of range")
  | Some text :: _ => Ok (JStr text)
  | None :: _ => Ok JNull
  end.

(** [json.loads(v)] *)
Definition loads (v : json) : result json :=
  match v with
  | JStr text => json_loads w text
  | _ => Raise (Exn TypeError
                  ($"the JSON object must be str, bytes or bytearray, not "
                   ++ type_name v))
  end.

Definition error_object (message : pystr) : json :=
  JObj [($"error", JStr message)].

Local Open Scope io_scope.

Definition analyze_job_match (data : json) : io json :=
  if key_missing then
    ret (error_object
           $"OpenAI API key not configured. Please set the OPENAI_API_KEY environment variable.")
  else
    prompt <~ lift (build_prompt data) ;;
    try_except
      (response <~ create (the_request prompt) ;;
       try_except
         (analysis_text <~ lift (first_content response) ;;
          analysis <~ lift (loads analysis_text) ;;
          lift (normalize_analysis_response analysis))
         (Some JSONDecodeError)
         (fun _ =>
            content <~ lift (first_content response) ;;
            lift (normalize_analysis_response
                    (JObj [ ($"match_explanation", content);
                            ($"strengths", JList []);
                            ($"gaps", JList []);
                            ($"recommendations", JList []) ]))))
      None
      (fun e =>
         ret (error_object ($"Error analyzing job match: " ++ exn_str e))).

(** An HTTP answer: status code and JSON body. *)
Definition response : Type := Z * json.

(** [not data or "data" not in data] *)
Definition data_missing (data : json) : result bool :=
  if negb (truthy data) then Ok true
  else (present <- py_in $"data" data ;; Ok (negb present))%result.

Definition analyze_match : io response :=
  try_except
    (data <~ lift (request_json w) ;;
     missing <~ lift (data_missing data) ;;
     if missing then
       ret (400%Z,
            error_object $"Invalid data format. Missing 'data' field.")
     else
       analysis <~ analyze_job_match data ;;
       percentage <~ lift (d <- py_get data $"data" (JObj []) ;;
                           py_get d $"Matching_Percentage" (JInt 0))%result ;;
       ret (200%Z,
            JObj [ ($"status", JStr $"success");
                   ($"data",
                    JObj [ ($"Matching_Percentage", percentage);
                           ($"analysis", analysis) ]) ]))
    None
    (fun e => ret (500%Z, error_object (exn_str e))).

End Handler.

(** ** Closed forms used in the proofs *)

(** The dict [normalized], by the values of its four keys. *)
Definition normalized_dict (explanation strengths gaps recommendations : json)
  : dict :=
  [ ($"match_explanation", explanation);
    ($"strengths", strengths);
    ($"gaps", gaps);
    ($"recommendations", recommendations) ].

Section ClosedForms.
Context {U : UnicodeTable}.

(** What the explanation becomes, from the value under its key if any. *)
Definition explanation_value (o : option json) : json :=
  match o with
  | None => JStr []
  | Some (JStr s) => JStr s
  | Some v => JStr (py_str v)
  end.

(** The parts of a non-blank text. *)
Definition sequence_of (text : pystr) : list json :=
  if has_char 10 text then stripped_parts 10 text
  else if has_char 59 text then stripped_parts 59 text
  else if has_char 44 text then stripped_parts 44 text
  else [JStr text].

(** What a list field becomes, from the value under its key if any. *)
Definition list_value (o : option json) : json :=
  match o with
  | None => JList []
  | Some (JList l) => JList l
  | Some (JStr text) =>
      if nonempty (strip text) then JList (sequence_of text) else JList []
  | Some v => JList [JStr (py_str v)]
  end.

End ClosedForms.

(** A list of non-empty strings. *)
Definition nonempty_strings (l : list json) : Prop :=
  Forall (fun x => exists s, x = JStr s /\ s <> []) l.

Definition is_dict (v : json) : bool :=
  match v with JObj _ => true | _ => false end.

(** ** The parts of a request *)

Definition as_dict (v : json) : dict :=
  match v with JObj d => d | _ => [] end.

(** The value under [data], and under it the profile, the job posting
    and the match percentage, each with the default the code gives. *)
Definition data_of (body : dict) : dict :=
  as_dict (get_or body $"data" (JObj [])).

Definition member_of (body : dict) : dict :=
  as_dict (get_or (data_of body) $"member" (JObj [])).

Definition jobpost_of (body : dict) : dict :=
  as_dict (get_or (data_of body) $"jobpost" (JObj [])).

Definition percentage_of (body : dict) : json :=
  get_or (data_of body) $"Matching_Percentage" (JInt 0).

Definition mapping_or_absent (o : option json) : bool :=
  match o with
  | None | Some (JObj _) => true
  | Some _ => false
  end.

(** A body shaped as a MatchRequest: [data], [member] and [jobpost] are
    mappings where they are present. *)
Definition match_request (body : dict) : bool :=
  match dict_get body $"data" with
  | None => true
  | Some (JObj inner) =>
      mapping_or_absent (dict_get inner $"member")
      && mapping_or_absent (dict_get inner $"jobpost")
  | Some _ => false
  end.

(** The line of the prompt that shows one field of [obj]. *)
Section Shown.
Context {U : UnicodeTable}.

Definition shown_field (obj : dict) (field : pystr * pystr) : pystr :=
  $"- " ++ fst field ++ $": " ++ py_str (get_or obj (snd field) (JStr $"N/A")).

End Shown.

(** A line [- key: (type) text] of the format instructions gives
    [(key, type)]. *)
Definition format_key (line : pystr) : option (pystr * pystr) :=
  match cut $"- " line with
  | Some ([], rest) =>
      match cut $": (" rest with
      | Some (key, rest') =>
          match cut $") " rest' with
          | Some (type, _) => Some (key, type)
          | None => None
          end
      | None => None
      end
  | _ => None
  end.

Definition total_weight (components : list (N * pystr * N)) : N :=
  fold_right N.add 0 (List.map snd components).

(** The wrapper built around a completion text that did not parse. *)
Definition plain_text_analysis (text : pystr) : json :=
  JObj [ ($"match_explanation", JStr text);
         ($"strengths", JList []);
         ($"gaps", JList []);
         ($"recommendations", JList []) ].

(** ** Sample surroundings *)

Definition quoted (s : pystr) : pystr := 34 :: s ++ [34].

(** The request body of scenario A. *)
Definition body_A : dict :=
  [ ($"data",
     JObj [ ($"member", JObj [($"Headline", JStr $"Engineer")]);
            ($"jobpost", JObj [($"JobTitle", JStr $"Backend Dev")]);
            ($"Matching_Percentage", JInt 72) ]) ].

(** The completion text of scenario A. *)
Definition text_A : pystr :=
  $"{" ++ quoted $"match_explanation" ++ $":" ++ quoted $"Good fit" ++ $","
  ++ quoted $"strengths" ++ $":" ++ quoted $"Python;SQL" ++ $","
  ++ quoted $"gaps" ++ $":" ++ quoted [] ++ $","
  ++ quoted $"recommendations" ++ $":[" ++ quoted $"Learn Go" ++ $"]}".

(** What [json.loads] gives for it. *)
Definition fields_A : dict :=
  [ ($"match_explanation", JStr $"Good fit");
    ($"strengths", JStr $"Python;SQL");
    ($"gaps", JStr []);
    ($"recommendations", JList [JStr $"Learn Go"]) ].

Definition decoded_A : json := JObj fields_A.

Definition not_json : exn :=
  Exn JSONDecodeError $"Expecting value: line 1 column 1 (char 0)".

(** Scenario A: a credential, the request, a service that answers
    [text_A], and a decoder that knows that text alone. *)
Definition world_A : world :=
  {| openai_api_key := Some $"sk-test";
     request_json := Ok (JObj body_A);
     chat_completions_create := fun _ => Ok [Some text_A];
     json_loads := fun t => if eqb t text_A then Ok decoded_A
                            else Raise not_json |}.

(** The same with a service that answers plain words. *)
Definition world_plain_text : world :=
  {| openai_api_key := Some $"sk-test";
     request_json := Ok (JObj body_A);
     chat_completions_create := fun _ => Ok [Some $"A good fit overall."];
     json_loads := fun t => if eqb t text_A then Ok decoded_A
                            else Raise not_json |}.

(** The same request with no credential; the service must not be reached. *)
Definition world_no_key : world :=
  {| openai_api_key := None;
     request_json := Ok (JObj body_A);
     chat_completions_create :=
       fun _ => Raise (Exn OtherException $"not reachable");
     json_loads := fun _ => Raise not_json |}.


(** A request whose [data] is null. *)
Definition world_null_data : world :=
  {| openai_api_key := Some $"sk-test";
     request_json := Ok (JObj [($"data", JNull)]);
     chat_completions_create := fun _ => Ok [Some text_A];
     json_loads := fun _ => Raise not_json |}.


(** ** Shapes of results *)

(** The keys of a normalized analysis. *)
Definition four_keys : list pystr :=
  [$"match_explanation"; $"strengths"; $"gaps"; $"recommendations"].

(** The dict [normalized] as it is first built. *)
Definition default_result : json :=
  JObj (normalized_dict (JStr []) (JList []) (JList []) (JList [])).

(** A mapping of the normalizer's shape: a text and three lists. *)
Definition well_shaped (a : json) : Prop :=
  exists s l1 l2 l3,
    a = JObj (normalized_dict (JStr s) (JList l1) (JList l2) (JList l3)).

(** [None], a [bool], an [int] or a [float]. *)
Definition is_scalar (v : json) : bool :=
  match v with
  | JNull | JBool _ | JInt _ | JFloat _ => true
  | _ => false
  end.

(** The body of a 200 answer. *)
Definition envelope (percentage analysis : json) : json :=
  JObj [ ($"status", JStr $"success");
         ($"data",
          JObj [ ($"Matching_Percentage", percentage);
                 ($"analysis", analysis) ]) ].

(** The inner [try] of [analyze_job_match], as a function of the
    completion received. *)
Section ParseBlock.
Context {U : UnicodeTable}.
Variable w : world.

Local Open Scope io_scope.

Definition parse_block (response : completion) : io json :=
  try_except
    (analysis_text <~ lift (first_content response) ;;
     analysis <~ lift (loads w analysis_text) ;;
     lift (normalize_analysis_response analysis))
    (Some JSONDecodeError)
    (fun _ =>
       content <~ lift (first_content response) ;;
       lift (normalize_analysis_response
               (JObj [ ($"match_explanation", content);
                       ($"strengths", JList []);
                       ($"gaps", JList []);
                       ($"recommendations", JList []) ]))).

(** What the outer [except Exception] makes of a failure. *)
Definition analysis_error (e : exn) : json :=
  error_object ($"Error analyzing job match: " ++ exn_str e).

End ParseBlock.

(** ** More sample surroundings *)

(** Scenario A with a service that cannot be reached. *)
Definition world_unreachable : world :=
  {| openai_api_key := Some $"sk-test";
     request_json := Ok (JObj body_A);
     chat_completions_create :=
       fun _ => Raise (Exn OtherException $"Connection error.");
     json_loads := fun _ => Raise not_json |}.

(** Scenario A with a completion that has no choice. *)
Definition world_no_choice : world :=
  {| openai_api_key := Some $"sk-test";
     request_json := Ok (JObj body_A);
     chat_completions_create := fun _ => Ok [];
     json_loads := fun _ => Raise not_json |}.

(** A request whose profile is null. *)
Definition body_null_member : dict :=
  [($"data", JObj [($"member", JNull)])].

Definition world_null_member : world :=
  {| openai_api_key := Some $"sk-test";
     request_json := Ok (JObj body_null_member);
     chat_completions_create := fun _ => Ok [Some text_A];
     json_loads := fun _ => Raise not_json |}.

(** A request whose job title is null. *)
Definition body_null_title : dict :=
  [($"data", JObj [($"jobpost", JObj [($"JobTitle", JNull)])])].

(** A request whose body is the empty list. *)
Definition world_empty_list : world :=
  {| openai_api_key := Some $"sk-test";
     request_json := Ok (JList []);
     chat_completions_create := fun _ => Ok [Some text_A];
     json_loads := fun _ => Raise not_json |}.

(** A request whose body is a list that holds the text data. *)
Definition world_list_body : world :=
  {| openai_api_key := Some $"sk-test";
     request_json := Ok (JList [JStr $"data"]);
     chat_completions_create := fun _ => Ok [Some text_A];
     json_loads := fun _ => Raise not_json |}.




(** * Properties *)

(** ** Strings *)

Lemma eqb_spec (a b : pystr) : reflect (a = b) (eqb a b).
Proof.
  revert b. induction a as [|x a IH]; intros [|y b]; simpl;
    try (constructor; congruence).
  destruct (N.eqb_spec x y) as [->|Hxy]; simpl.
  - destruct (IH b) as [->|Hab]; constructor; congruence.
  - constructor; congruence.
Qed.

Lemma eqb_refl (a : pystr) : eqb a a = true.
Proof. destruct (eqb_spec a a); congruence. Qed.

Lemma split_not_nil (sep : char) (s : pystr) : split sep s <> [].
Proof.
  destruct s as [|c s]; simpl; [discriminate|].
  destruct (c =? sep); [discriminate|].
  destruct (split sep s); discriminate.
Qed.

(** Joining the parts with the separator gives the text back. *)
Lemma join_split (sep : char) (s : pystr) : join [sep] (split sep s) = s.
Proof.
  induction s as [|c s IH]; simpl; [reflexivity|].
  destruct (N.eqb_spec c sep) as [->|Hc].
  - pose proof (split_not_nil sep s) as Hne.
    destruct (split sep s) as [|p ps]; [congruence|].
    simpl. simpl in IH. now rewrite IH.
  - destruct (split sep s) as [|p ps] eqn:E; simpl.
    + now destruct (split_not_nil sep s).
    + simpl in IH. destruct ps; simpl in *; now rewrite <- IH.
Qed.

(** No part holds the separator. *)
Lemma split_parts_free (sep : char) (s : pystr) :
  Forall (fun p => has_char sep p = false) (split sep s).
Proof.
  induction s as [|c s IH]; simpl.
  - constructor; [reflexivity|constructor].
  - destruct (N.eqb_spec c sep) as [->|Hc].
    + constructor; [reflexivity|assumption].
    + destruct (split sep s) as [|p ps].
      * constructor; [|constructor]. simpl.
        destruct (N.eqb_spec sep c); [congruence|reflexivity].
      * inversion IH; subst. constructor; [|assumption]. simpl.
        destruct (N.eqb_spec sep c); [congruence|assumption].
Qed.

(** A text without the separator is its own single part. *)
Lemma split_without_sep (sep : char) (s : pystr) :
  has_char sep s = false -> split sep s = [s].
Proof.
  induction s as [|c s IH]; simpl; [reflexivity|].
  intros H. apply orb_false_iff in H as [Hc Hs].
  rewrite N.eqb_sym, Hc. now rewrite (IH Hs).
Qed.

Lemma lstrip_suffix (s : pystr) :
  exists ws, s = ws ++ lstrip s /\ forallb isspace ws = true.
Proof.
  induction s as [|c s (ws & E & Hws)]; simpl.
  - exists []. split; reflexivity.
  - destruct (isspace c) eqn:Hc.
    + exists (c :: ws). simpl. rewrite Hc, Hws. split; [now f_equal|reflexivity].
    + exists []. split; reflexivity.
Qed.

Lemma lstrip_head (s : pystr) (c : char) (r : pystr) :
  lstrip s = c :: r -> isspace c = false.
Proof.
  induction s as [|x s IH]; simpl; [discriminate|].
  destruct (isspace x) eqn:Hx; [assumption|].
  intros E. injection E as -> _. assumption.
Qed.

(** [strip] removes a run of whitespace at each end, and what is left
    neither starts nor ends with whitespace. *)
Lemma strip_spec (s : pystr) :
  exists before after,
    s = before ++ strip s ++ after
    /\ forallb isspace before = true
    /\ forallb isspace after = true
    /\ (forall c r, strip s = c :: r -> isspace c = false)
    /\ (forall c r, strip s = r ++ [c] -> isspace c = false).
Proof.
  unfold strip, rstrip.
  destruct (lstrip_suffix s) as (before & Es & Hb).
  destruct (lstrip_suffix (rev (lstrip s))) as (ws & Er & Hw).
  exists before, (rev ws). repeat split.
  - rewrite Es at 1. f_equal.
    rewrite <- (rev_involutive (lstrip s)) at 1.
    rewrite Er at 1. now rewrite rev_app_distr.
  - assumption.
  - rewrite forallb_forall in *. intros x Hx. apply Hw. now apply in_rev.
  - intros c r E.
    destruct (lstrip (rev (lstrip s))) as [|y t] eqn:El; [discriminate|].
    assert (Hin : In c (lstrip s)).
    { rewrite in_rev, Er. apply in_or_app. right.
      apply in_rev. rewrite E. now left. }
    destruct (isspace c) eqn:Hc; [|reflexivity]. exfalso.
    (* the kept text starts where [lstrip s] starts, or it is empty *)
    destruct (lstrip s) as [|z u] eqn:Els; [contradiction|].
    pose proof (lstrip_head _ Els) as Hz.
    assert (Hrev : rev (y :: t) = c :: r) by exact E.
    assert (Ezu : z :: u = rev (y :: t) ++ rev ws).
    { rewrite <- rev_app_distr, <- Er. now rewrite rev_involutive. }
    rewrite Hrev in Ezu. simpl in Ezu. injection Ezu as -> _. congruence.
  - intros c r E.
    assert (El : lstrip (rev (lstrip s)) = c :: rev r).
    { rewrite <- (rev_involutive (lstrip (rev (lstrip s)))), E.
      now rewrite rev_app_distr. }
    exact (lstrip_head _ El).
Qed.

(** ** [repr] and [str] are never empty *)

Lemma of_Z_not_nil (n : Z) : of_Z n <> [].
Proof.
  unfold of_Z, NilZero.string_of_int.
  destruct (Z.to_int n) as [d|d]; [|discriminate].
  unfold NilZero.string_of_uint.
  destruct d; discriminate.
Qed.

Section ReprFacts.
Context {U : UnicodeTable}.

Lemma py_repr_not_nil (v : json) : py_repr v <> [].
Proof.
  destruct v as [|[]|n|f|s|l|d]; try discriminate.
  apply of_Z_not_nil.
Qed.

Lemma py_str_not_nil (v : json) : is_str v = false -> py_str v <> [].
Proof.
  destruct v; try discriminate; intros _; apply (py_repr_not_nil _).
Qed.

End ReprFacts.

(** ** The normalizer on a mapping *)

Lemma strip_nonempty (s : pystr) : nonempty (strip s) = true -> s <> [].
Proof. intros H ->. discriminate. Qed.

Lemma stripped_parts_nonempty (sep : char) (text : pystr) :
  nonempty_strings (stripped_parts sep text).
Proof.
  unfold nonempty_strings, stripped_parts.
  apply Forall_forall. intros x Hx.
  apply in_map_iff in Hx as (p & <- & Hp).
  apply filter_In in Hp as [_ Hp].
  exists (strip p). split; [reflexivity|].
  destruct (strip p); [discriminate|discriminate].
Qed.

(** The comprehension, as trimming every part and then dropping the
    empty ones. *)
Lemma stripped_parts_map_filter (sep : char) (text : pystr) :
  stripped_parts sep text
  = List.map JStr (filter nonempty (List.map strip (split sep text))).
Proof.
  unfold stripped_parts.
  induction (split sep text) as [|p ps IH]; simpl; [reflexivity|].
  destruct (nonempty (strip p)); simpl; now rewrite IH.
Qed.

Section NormalizerFacts.
Context {U : UnicodeTable}.

Lemma normalize_explanation_mapping (d : dict) (b c e : json) :
  normalize_explanation (JObj d) (normalized_dict (JStr []) b c e)
  = Ok (normalized_dict
          (explanation_value (dict_get d $"match_explanation")) b c e).
Proof.
  unfold normalize_explanation, py_in, py_getitem, dict_has; simpl rbind.
  destruct (dict_get d $"match_explanation") as [[]|]; reflexivity.
Qed.

Ltac list_field_cases d key :=
  unfold normalize_list_field, py_in, py_getitem, dict_has, list_value,
    sequence_of; simpl rbind;
  destruct (dict_get d key) as [[| | | |text| |]|]; try reflexivity;
  simpl rbind;
  destruct (nonempty (strip text)); try reflexivity;
  destruct (has_char 10 text); try reflexivity;
  destruct (has_char 59 text); try reflexivity;
  destruct (has_char 44 text); reflexivity.

Lemma normalize_strengths_mapping (d : dict) (a c e : json) :
  normalize_list_field $"strengths" (JObj d) (normalized_dict a (JList []) c e)
  = Ok (normalized_dict a (list_value (dict_get d $"strengths")) c e).
Proof. list_field_cases d $"strengths". Qed.

Lemma normalize_gaps_mapping (d : dict) (a b e : json) :
  normalize_list_field $"gaps" (JObj d) (normalized_dict a b (JList []) e)
  = Ok (normalized_dict a b (list_value (dict_get d $"gaps")) e).
Proof. list_field_cases d $"gaps". Qed.

Lemma normalize_recommendations_mapping (d : dict) (a b c : json) :
  normalize_list_field $"recommendations" (JObj d)
    (normalized_dict a b c (JList []))
  = Ok (normalized_dict a b c (list_value (dict_get d $"recommendations"))).
Proof. list_field_cases d $"recommendations". Qed.

(** On a mapping the normalizer never raises, and its result is given
    field by field. *)
Lemma normalize_mapping (d : dict) :
  normalize_analysis_response (JObj d)
  = Ok (JObj (normalized_dict
                (explanation_value (dict_get d $"match_explanation"))
                (list_value (dict_get d $"strengths"))
                (list_value (dict_get d $"gaps"))
                (list_value (dict_get d $"recommendations")))).
Proof.
  unfold normalize_analysis_response.
  change [ ($"match_explanation", JStr []); ($"strengths", JList []);
           ($"gaps", JList []); ($"recommendations", JList []) ]
    with (normalized_dict (JStr []) (JList []) (JList []) (JList [])).
  rewrite normalize_explanation_mapping; simpl rbind.
  rewrite normalize_strengths_mapping; simpl rbind.
  rewrite normalize_gaps_mapping; simpl rbind.
  rewrite normalize_recommendations_mapping; reflexivity.
Qed.

Lemma list_value_is_list (o : option json) : exists l, list_value o = JList l.
Proof.
  destruct o as [[| | | |text| |]|]; simpl; eauto.
  destruct (nonempty (strip text)); eauto.
Qed.

Lemma sequence_of_nonempty (text : pystr) :
  nonempty (strip text) = true -> nonempty_strings (sequence_of text).
Proof.
  intros H. unfold sequence_of.
  destruct (has_char 10 text); [apply stripped_parts_nonempty|].
  destruct (has_char 59 text); [apply stripped_parts_nonempty|].
  destruct (has_char 44 text); [apply stripped_parts_nonempty|].
  constructor; [|constructor].
  exists text. split; [reflexivity|now apply strip_nonempty].
Qed.

Lemma list_value_other (v : json) :
  is_str v = false -> is_list v = false ->
  list_value (Some v) = JList [JStr (py_str v)].
Proof. destruct v; try discriminate; reflexivity. Qed.

(** A value that is not a list becomes a list of non-empty strings. *)
Lemma list_value_nonempty_strings (o : option json) (l : list json) :
  (forall l0, o <> Some (JList l0)) ->
  list_value o = JList l -> nonempty_strings l.
Proof.
  intros Hnl E. destruct o as [v|].
  - destruct (is_list v) eqn:Hl.
    { destruct v as [| | | | |l0|]; try discriminate. now destruct (Hnl l0). }
    destruct (is_str v) eqn:Hs.
    + destruct v as [| | | |text| |]; try discriminate.
      cbn [list_value] in E.
      destruct (nonempty (strip text)) eqn:Ht.
      * assert (l = sequence_of text) as -> by congruence.
        now apply sequence_of_nonempty.
      * assert (l = []) as -> by congruence. constructor.
    + rewrite (list_value_other _ Hs Hl) in E.
      assert (l = [JStr (py_str v)]) as -> by congruence.
      constructor; [|constructor].
      exists (py_str v). split; [reflexivity|now apply py_str_not_nil].
  - cbn [list_value] in E. assert (l = []) as -> by congruence. constructor.
Qed.

Lemma spec_split_sequence (text : pystr) :
  sequence_of text = List.map JStr (spec_split text).
Proof.
  unfold sequence_of, spec_split; simpl find.
  destruct (has_char 10 text); [apply stripped_parts_map_filter|].
  destruct (has_char 59 text); [apply stripped_parts_map_filter|].
  destruct (has_char 44 text); [apply stripped_parts_map_filter|].
  reflexivity.
Qed.

End NormalizerFacts.

Section NormalizerClaims.
Context {U : UnicodeTable}.

(** Each list field of the result holds [list_value] of the input's. *)
Lemma normalized_list_field (d : dict) (f : pystr) :
  In f list_fields ->
  exists out,
    normalize_analysis_response (JObj d) = Ok (JObj out)
    /\ dict_get out f = Some (list_value (dict_get d f)).
Proof.
  intros Hf. rewrite normalize_mapping. eexists. split; [reflexivity|].
  destruct Hf as [<-|[<-|[<-|[]]]]; reflexivity.
Qed.

Lemma normalized_explanation (d : dict) :
  exists out,
    normalize_analysis_response (JObj d) = Ok (JObj out)
    /\ dict_get out $"match_explanation"
       = Some (explanation_value (dict_get d $"match_explanation")).
Proof.
  rewrite normalize_mapping. eexists. split; reflexivity.
Qed.

Lemma explanation_value_is_str (o : option json) :
  exists s, explanation_value o = JStr s.
Proof. destruct o as [[]|]; simpl; eauto. Qed.

(** A mapping that already has the result's shape is left as it is. *)
Lemma normalize_well_shaped (s : pystr) (l1 l2 l3 : list json) :
  normalize_analysis_response
    (JObj (normalized_dict (JStr s) (JList l1) (JList l2) (JList l3)))
  = Ok (JObj (normalized_dict (JStr s) (JList l1) (JList l2) (JList l3))).
Proof. rewrite normalize_mapping. reflexivity. Qed.

(** C1 (as amended): for every input mapping the normalizer returns, and
    each of strengths, gaps and recommendations of the result is a list,
    never a bare string and never None. When the input value of the field
    is absent or is not itself a list, that list holds non-empty strings
    only; when the input value is a list, it is returned as it is, with
    whatever elements it has. *)
Theorem list_fields_are_sequences (d : dict) (f : pystr) :
  In f list_fields ->
  exists out l,
    normalize_analysis_response (JObj d) = Ok (JObj out)
    /\ dict_get out f = Some (JList l)
    /\ ((forall l0, dict_get d f <> Some (JList l0)) -> nonempty_strings l)
    /\ (forall l0, dict_get d f = Some (JList l0) -> l = l0).
Proof.
  intros Hf.
  destruct (normalized_list_field d Hf) as (out & Hout & Hget).
  destruct (list_value_is_list (dict_get d f)) as (l & Hl).
  exists out, l. repeat split; try assumption.
  - now rewrite Hget, Hl.
  - intros Hnl. exact (list_value_nonempty_strings Hnl Hl).
  - intros l0 E. rewrite E in Hl. simpl in Hl. congruence.
Qed.

(** C2: a non-blank string under a list field is split on the first of
    newline, semicolon, comma that occurs in it: on newlines alone when it
    holds one, whatever else it holds; each part is trimmed and the empty
    ones are dropped; a string with none of the three is the only element
    of the result. *)
Theorem string_field_is_split (d : dict) (f text : pystr) :
  In f list_fields ->
  dict_get d f = Some (JStr text) ->
  strip text <> [] ->
  exists out,
    normalize_analysis_response (JObj d) = Ok (JObj out)
    /\ dict_get out f = Some (JList (List.map JStr (spec_split text)))
    /\ (has_char 10 text = true ->
        spec_split text = filter nonempty (List.map strip (split 10 text)))
    /\ (has_char 10 text = false -> has_char 59 text = true ->
        spec_split text = filter nonempty (List.map strip (split 59 text)))
    /\ (has_char 10 text = false -> has_char 59 text = false ->
        has_char 44 text = true ->
        spec_split text = filter nonempty (List.map strip (split 44 text)))
    /\ (has_char 10 text = false -> has_char 59 text = false ->
        has_char 44 text = false ->
        spec_split text = [text]).
Proof.
  intros Hf Hget Hblank.
  destruct (normalized_list_field d Hf) as (out & Hout & Hval).
  exists out. split; [assumption|]. split.
  - rewrite Hval, Hget. cbn [list_value].
    destruct (strip text) as [|c r] eqn:Hs; [congruence|].
    cbn [nonempty]. now rewrite spec_split_sequence.
  - unfold spec_split; simpl find. repeat split.
    + now intros ->.
    + now intros -> ->.
    + now intros -> -> ->.
    + now intros -> -> ->.
Qed.

(** C3: an empty or whitespace-only string under a list field gives the
    empty list, and an absent field gives its default: the empty string
    for the explanation, the empty list for each list field. *)
Theorem blank_and_absent_fields (d : dict) :
  exists out,
    normalize_analysis_response (JObj d) = Ok (JObj out)
    /\ (dict_get d $"match_explanation" = None ->
        dict_get out $"match_explanation" = Some (JStr []))
    /\ (forall f, In f list_fields ->
        (dict_get d f = None ->
         dict_get out f = Some (JList []))
        /\ (forall text,
              dict_get d f = Some (JStr text) -> strip text = [] ->
              dict_get out f = Some (JList []))).
Proof.
  destruct (normalized_explanation d) as (out & Hout & Hexp).
  exists out. split; [assumption|]. split.
  - intros Habs. now rewrite Hexp, Habs.
  - intros f Hf.
    destruct (normalized_list_field d Hf) as (out' & Hout' & Hval).
    assert (out' = out) as -> by congruence.
    split.
    + intros Habs. now rewrite Hval, Habs.
    + intros text Hget Hblank. rewrite Hval, Hget. cbn [list_value].
      now rewrite Hblank.
Qed.

(** C4: the normalizer is idempotent on mappings: its result is a mapping
    that it maps to itself. *)
Theorem normalize_idempotent (d : dict) :
  (exists out,
      normalize_analysis_response (JObj d) = Ok (JObj out)
      /\ normalize_analysis_response (JObj out) = Ok (JObj out))
  /\ (once <- normalize_analysis_response (JObj d) ;;
      normalize_analysis_response once)
     = normalize_analysis_response (JObj d).
Proof.
  rewrite normalize_mapping.
  destruct (list_value_is_list (dict_get d $"strengths")) as (l1 & ->).
  destruct (list_value_is_list (dict_get d $"gaps")) as (l2 & ->).
  destruct (list_value_is_list (dict_get d $"recommendations")) as (l3 & ->).
  destruct (explanation_value_is_str (dict_get d $"match_explanation"))
    as (s & ->).
  split.
  - eexists. split; [reflexivity|]. apply normalize_well_shaped.
  - cbn [rbind]. apply normalize_well_shaped.
Qed.

(** C9: the result has the four keys match_explanation, strengths, gaps,
    recommendations and no other: a key of the input besides these is
    not a key of the result. *)
Theorem result_has_exactly_four_keys (d : dict) :
  exists out,
    normalize_analysis_response (JObj d) = Ok (JObj out)
    /\ keys out
       = [$"match_explanation"; $"strengths"; $"gaps"; $"recommendations"]
    /\ (forall k,
          ~ In k [$"match_explanation"; $"strengths"; $"gaps";
                  $"recommendations"] ->
          dict_get out k = None /\ ~ In k (keys out)).
Proof.
  rewrite normalize_mapping. eexists. split; [reflexivity|].
  split; [reflexivity|]. intros k Hk. split; [|exact Hk].
  unfold normalized_dict, dict_get.
  repeat match goal with
         | |- context [eqb ?a k] =>
             destruct (eqb_spec a k) as [<-|_];
             [exfalso; apply Hk; simpl; tauto|]
         end.
  reflexivity.
Qed.

End NormalizerClaims.

(** ** The monad of the handler *)

Lemma bind_ok {A B} (a : A) (k : A -> io B) : bind (lift (Ok a)) k = k a.
Proof. unfold bind, lift. now destruct (k a). Qed.

Lemma bind_raise {A B} (e : exn) (k : A -> io B) :
  bind (lift (Raise e)) k = ([], Raise e).
Proof. reflexivity. Qed.

Lemma bind_ret {A B} (a : A) (k : A -> io B) : bind (ret a) k = k a.
Proof. apply bind_ok. Qed.

Lemma try_except_ok {A} (t : trace) (a : A) cls handler :
  try_except (t, Ok a) cls handler = (t, Ok a).
Proof. reflexivity. Qed.

Lemma try_except_any {A} (t : trace) (e : exn) (handler : exn -> io A) :
  try_except (t, Raise e) None handler
  = (t ++ fst (handler e), snd (handler e)).
Proof. unfold try_except. now destruct (handler e). Qed.

Lemma try_except_class {A} (t : trace) (e : exn) (c : exn_class)
    (handler : exn -> io A) :
  exn_class_eqb c (exn_type e) = true ->
  try_except (t, Raise e) (Some c) handler
  = (t ++ fst (handler e), snd (handler e)).
Proof. intros H. unfold try_except. rewrite H. now destruct (handler e). Qed.

(** ** The endpoint *)

Section HandlerClaims.
Context {U : UnicodeTable}.
Variable w : world.

Lemma data_missing_no_key (body : dict) :
  dict_get body $"data" = None -> data_missing (JObj body) = Ok true.
Proof.
  intros H. unfold data_missing, py_in, dict_has. rewrite H.
  destruct body; reflexivity.
Qed.

Lemma data_missing_with_key (body : dict) (v : json) :
  dict_get body $"data" = Some v -> data_missing (JObj body) = Ok false.
Proof.
  intros H. unfold data_missing, py_in, dict_has. rewrite H.
  destruct body; [discriminate|reflexivity].
Qed.

Lemma build_prompt_not_mapping (body : dict) (v : json) :
  dict_get body $"data" = Some v -> is_dict v = false ->
  build_prompt (JObj body)
  = Raise (Exn AttributeError
             ($"'" ++ type_name v ++ $"' object has no attribute 'get'")).
Proof.
  intros H Hv. unfold build_prompt, py_get at 1 2, get_or. rewrite H.
  destruct v; try discriminate; reflexivity.
Qed.

Lemma percentage_of_mapping (body inner : dict) :
  dict_get body $"data" = Some (JObj inner) ->
  (d <- py_get (JObj body) $"data" (JObj []) ;;
   py_get d $"Matching_Percentage" (JInt 0))
  = Ok (get_or inner $"Matching_Percentage" (JInt 0)).
Proof.
  intros H. unfold py_get, get_or, rbind. now rewrite H.
Qed.

(** C5: with no credential the analysis is the configuration-error
    object, whatever the data, and nothing was sent; and for a request
    whose [data] is a mapping the endpoint still answers 200 with status
    success, the request's Matching_Percentage (0 when absent) and that
    error object as the analysis. *)
Theorem no_credential_short_circuits :
  key_missing w = true ->
  (forall data,
      analyze_job_match w data
      = ([], Ok (error_object
                   $"OpenAI API key not configured. Please set the OPENAI_API_KEY environment variable.")))
  /\ (forall body inner,
        request_json w = Ok (JObj body) ->
        dict_get body $"data" = Some (JObj inner) ->
        analyze_match w
        = ([], Ok (200%Z,
                   JObj [ ($"status", JStr $"success");
                          ($"data",
                           JObj [ ($"Matching_Percentage",
                                   get_or inner $"Matching_Percentage" (JInt 0));
                                  ($"analysis",
                                   error_object
                                     $"OpenAI API key not configured. Please set the OPENAI_API_KEY environment variable.") ]) ]))).
Proof.
  intros Hkey.
  assert (Ha : forall data,
             analyze_job_match w data
             = ret (error_object
                   $"OpenAI API key not configured. Please set the OPENAI_API_KEY environment variable.")).
  { intros data. unfold analyze_job_match. now rewrite Hkey. }
  split; [exact Ha|].
  intros body inner Hreq Hdata. unfold analyze_match.
  rewrite Hreq, bind_ok, (data_missing_with_key _ Hdata), bind_ok.
  rewrite Ha, bind_ret.
  rewrite (percentage_of_mapping _ Hdata), bind_ok. reflexivity.
Qed.


(** C10: with a credential, a body whose data is present but is not a
    mapping (null, say) gets neither 400 nor a success envelope: reading
    the fields raises AttributeError before anything is sent, and the
    answer is 500 with that error's message. *)
Theorem non_mapping_data_is_server_error (body : dict) (v : json) :
  key_missing w = false ->
  request_json w = Ok (JObj body) ->
  dict_get body $"data" = Some v ->
  is_dict v = false ->
  build_prompt (JObj body)
  = Raise (Exn AttributeError
             ($"'" ++ type_name v ++ $"' object has no attribute 'get'"))
  /\ analyze_match w
     = ([], Ok (500%Z,
                JObj [($"error",
                       JStr ($"'" ++ type_name v
                             ++ $"' object has no attribute 'get'"))])).
Proof.
  intros Hkey Hreq Hdata Hv.
  pose proof (build_prompt_not_mapping _ Hdata Hv) as Hb.
  split; [exact Hb|].
  unfold analyze_match.
  rewrite Hreq, bind_ok, (data_missing_with_key _ Hdata), bind_ok.
  unfold analyze_job_match. rewrite Hkey, Hb. reflexivity.
Qed.

End HandlerClaims.

(** ** The fallback on text that is not JSON *)

Section FallbackClaims.
Context {U : UnicodeTable}.
Variable w : world.

(** C8: when the completion text is not JSON ([json.loads] raises
    JSONDecodeError), the analysis is the normalizer's result on the
    wrapper holding the text as match_explanation and three empty lists,
    which is that wrapper itself; it has no error key, and the endpoint
    answers 200 with it. *)
Theorem parse_failure_falls_back
    (data : json) (prompt text : pystr) (rest : completion) (e : exn) :
  key_missing w = false ->
  build_prompt data = Ok prompt ->
  chat_completions_create w (the_request prompt) = Ok (Some text :: rest) ->
  json_loads w text = Raise e ->
  exn_type e = JSONDecodeError ->
  analyze_job_match w data
  = ([the_request prompt],
     normalize_analysis_response (plain_text_analysis text))
  /\ normalize_analysis_response (plain_text_analysis text)
     = Ok (plain_text_analysis text)
  /\ dict_get (as_dict (plain_text_analysis text)) $"error" = None
  /\ (forall body inner,
        data = JObj body ->
        request_json w = Ok data ->
        dict_get body $"data" = Some (JObj inner) ->
        analyze_match w
        = ([the_request prompt],
           Ok (200%Z,
               JObj [ ($"status", JStr $"success");
                      ($"data",
                       JObj [ ($"Matching_Percentage",
                               get_or inner $"Matching_Percentage" (JInt 0));
                              ($"analysis", plain_text_analysis text) ]) ]))).
Proof.
  intros Hkey Hprompt Hcreate Hloads Hcls.
  assert (Hnorm : normalize_analysis_response (plain_text_analysis text)
                  = Ok (plain_text_analysis text)).
  { unfold plain_text_analysis. now rewrite normalize_mapping. }
  assert (Ha : analyze_job_match w data
               = ([the_request prompt],
                  normalize_analysis_response (plain_text_analysis text))).
  { unfold analyze_job_match. rewrite Hkey, Hprompt, bind_ok.
    unfold create. rewrite Hcreate.
    unfold bind at 1. cbn [first_content lift].
    rewrite !bind_ok. cbn [loads]. rewrite Hloads, bind_raise.
    rewrite try_except_class by (now rewrite Hcls).
    fold (plain_text_analysis text). rewrite Hnorm. reflexivity. }
  repeat split; try assumption.
  intros body inner -> Hreq Hdata. unfold analyze_match.
  rewrite Hreq, bind_ok, (data_missing_with_key _ Hdata), bind_ok.
  rewrite Ha, Hnorm. unfold bind at 1.
  rewrite (percentage_of_mapping _ Hdata), bind_ok. reflexivity.
Qed.

End FallbackClaims.

(** ** The prompt *)

Lemma occurs_in_refl (x : pystr) : occurs_in x x.
Proof. exists [], []. now rewrite app_nil_r. Qed.

Lemma occurs_in_app_l (x a b : pystr) :
  occurs_in x a -> occurs_in x (a ++ b).
Proof.
  intros (p & q & ->). exists p, (q ++ b). now rewrite <- !app_assoc.
Qed.

Lemma occurs_in_app_r (x a b : pystr) :
  occurs_in x b -> occurs_in x (a ++ b).
Proof.
  intros (p & q & ->). exists (a ++ p), q. now rewrite <- !app_assoc.
Qed.

Lemma unlines_app (a b : list pystr) :
  unlines (a ++ b) = unlines a ++ unlines b.
Proof. apply flat_map_app. Qed.

Lemma occurs_in_line (l : pystr) (ls : list pystr) :
  In l ls -> occurs_in (l ++ [10]) (unlines ls).
Proof.
  intros Hin. apply in_split in Hin as (a & b & ->).
  rewrite unlines_app. apply occurs_in_app_r. simpl.
  apply occurs_in_app_l, occurs_in_refl.
Qed.

Lemma occurs_in_prefix (x y s : pystr) :
  occurs_in (x ++ y) s -> occurs_in x s.
Proof.
  intros (p & q & ->). exists p, (y ++ q). now rewrite <- !app_assoc.
Qed.

Section PromptClaims.
Context {U : UnicodeTable}.

Lemma field_lines_mapping (obj : dict) (fields : list (pystr * pystr)) :
  field_lines (JObj obj) fields = Ok (List.map (shown_field obj) fields).
Proof.
  induction fields as [|f fs IH]; simpl; [reflexivity|].
  now rewrite IH.
Qed.

(** On a MatchRequest no read fails, and the prompt is made from the job
    posting, the profile and the percentage alone. *)
Lemma build_prompt_request (body : dict) :
  match_request body = true ->
  build_prompt (JObj body)
  = prompt_text (JObj (jobpost_of body)) (JObj (member_of body))
      (percentage_of body).
Proof.
  unfold match_request, build_prompt, jobpost_of, member_of, percentage_of,
    data_of.
  cbn [py_get rbind]. unfold get_or.
  destruct (dict_get body $"data") as [[| | | | | |inner]|];
    try discriminate; intros H; cbn [rbind as_dict py_get]; unfold get_or.
  - apply andb_prop in H as [Hm Hj].
    destruct (dict_get inner $"member") as [[]|]; try discriminate;
      destruct (dict_get inner $"jobpost") as [[]|]; try discriminate;
      reflexivity.
  - reflexivity.
Qed.

(** C7 (as amended): for a request shaped as a MatchRequest the prompt
    is always produced, from the job posting, the profile and the
    percentage alone; every listed field appears on its labelled line
    with N/A in place of an absent one; the prompt holds the block of
    the matching algorithm, which enumerates eight weighted components,
    Required Skills 30, Preferred Skills 15, Other Skills 10,
    Qualifications 15, Responsibilities 15, Industry 5, Role 5 and
    Location 5, adding up to 100; and it asks for the four keys, with
    strengths, gaps and recommendations as arrays of strings. *)
Theorem prompt_of_match_request (body : dict) :
  match_request body = true ->
  exists prompt,
    build_prompt (JObj body) = Ok prompt
    /\ prompt_text (JObj (jobpost_of body)) (JObj (member_of body))
         (percentage_of body) = Ok prompt
    /\ Forall (fun f => occurs_in (shown_field (jobpost_of body) f ++ [10]) prompt)
         job_fields
    /\ Forall (fun f => occurs_in (shown_field (member_of body) f ++ [10]) prompt)
         profile_fields
    /\ (forall obj f, dict_get obj (snd f) = None ->
          shown_field obj f = $"- " ++ fst f ++ $": N/A")
    /\ occurs_in ($"- Match Percentage: " ++ py_str (percentage_of body) ++ $"%")
         prompt
    /\ occurs_in (unlines algorithm_lines) prompt
    /\ List.map component_header algorithm_lines
       = [ Some (1, $"Required Skills", 30);
           Some (2, $"Preferred Skills", 15);
           Some (3, $"Other Skills", 10);
           Some (4, $"Qualifications", 15);
           Some (5, $"Responsibilities", 15);
           Some (6, $"Industry", 5);
           Some (7, $"Role", 5);
           Some (8, $"Location", 5) ]
    /\ List.length (weighted_components (unlines algorithm_lines)) = 8%nat
    /\ total_weight (weighted_components (unlines algorithm_lines)) = 100
    /\ occurs_in (unlines format_lines) prompt
    /\ List.map format_key format_lines
       = [ Some ($"match_explanation", $"string");
           Some ($"strengths", $"array of strings");
           Some ($"gaps", $"array of strings");
           Some ($"recommendations", $"array of strings") ]
    /\ occurs_in important_line prompt.
Proof.
  intros Hreq. rewrite (build_prompt_request _ Hreq).
  unfold prompt_text. rewrite !field_lines_mapping. cbn [rbind].
  eexists. split; [reflexivity|]. split; [reflexivity|].
  split.
  { apply Forall_forall. intros f Hf.
    rewrite unlines_app. apply occurs_in_app_r.
    rewrite unlines_app. apply occurs_in_app_l.
    apply occurs_in_line. now apply in_map. }
  split.
  { apply Forall_forall. intros f Hf.
    do 3 (rewrite unlines_app; apply occurs_in_app_r).
    rewrite unlines_app. apply occurs_in_app_l.
    apply occurs_in_line. now apply in_map. }
  split.
  { intros obj f Hnone. unfold shown_field, get_or. now rewrite Hnone. }
  split.
  { do 4 (rewrite unlines_app; apply occurs_in_app_r).
    rewrite unlines_app. apply occurs_in_app_l.
    apply occurs_in_prefix with (y := [10]).
    apply occurs_in_line. simpl. tauto. }
  split.
  { do 5 (rewrite unlines_app; apply occurs_in_app_r).
    rewrite unlines_app. apply occurs_in_app_l. apply occurs_in_refl. }
  split; [vm_compute; reflexivity|].
  split; [vm_compute; reflexivity|].
  split; [vm_compute; reflexivity|].
  split.
  { do 7 (rewrite unlines_app; apply occurs_in_app_r).
    rewrite unlines_app. apply occurs_in_app_l. apply occurs_in_refl. }
  split; [vm_compute; reflexivity|].
  do 8 (rewrite unlines_app; apply occurs_in_app_r).
  apply occurs_in_prefix with (y := [10]).
  apply occurs_in_line. simpl. tauto.
Qed.

End PromptClaims.

(** * Evaluations on sample inputs *)

Section Samples.
#[local] Existing Instance latin1_table.

Example strip_example :
  strip $"  a b
 " = $"a b".
Proof. reflexivity. Qed.

Example strip_no_break_space : strip [0xA0; 97; 0x3000] = $"a".
Proof. reflexivity. Qed.

Example split_example :
  split 59 $"Python;SQL;" = [$"Python"; $"SQL"; []].
Proof. reflexivity. Qed.

Example of_Z_example : of_Z 72 = $"72" /\ of_Z (-5) = $"-5" /\ of_Z 0 = $"0".
Proof. repeat split. Qed.

Example repr_example :
  py_str (JObj [($"a", JList [JInt 1; JStr $"it's"; JNull])])
  = $"{'a': [1, " ++ quoted $"it's" ++ $", None]}".
Proof. reflexivity. Qed.

(** The normalizer on the decoded completion of scenario A. *)
Example normalize_A :
  normalize_analysis_response decoded_A
  = Ok (JObj [ ($"match_explanation", JStr $"Good fit");
               ($"strengths", JList [JStr $"Python"; JStr $"SQL"]);
               ($"gaps", JList []);
               ($"recommendations", JList [JStr $"Learn Go"]) ]).
Proof. reflexivity. Qed.

(** Newlines win over semicolons and commas. *)
Example newline_first :
  normalize_analysis_response
    (JObj [($"gaps", JStr $"Go; Rust
 SQL, Kafka ")])
  = Ok (JObj [ ($"match_explanation", JStr []);
               ($"strengths", JList []);
               ($"gaps", JList [JStr $"Go; Rust"; JStr $"SQL, Kafka"]);
               ($"recommendations", JList []) ]).
Proof. reflexivity. Qed.

(** Values of other types are wrapped as their text. *)
Example other_types :
  normalize_analysis_response
    (JObj [ ($"match_explanation", JInt 5);
            ($"strengths", JBool true);
            ($"gaps", JNull);
            ($"recommendations", JObj [($"a", JInt 1)]) ])
  = Ok (JObj [ ($"match_explanation", JStr $"5");
               ($"strengths", JList [JStr $"True"]);
               ($"gaps", JList [JStr $"None"]);
               ($"recommendations", JList [JStr $"{'a': 1}"]) ]).
Proof. reflexivity. Qed.

(** A decoded value that is not a mapping makes the normalizer raise. *)
Example normalize_number_raises :
  normalize_analysis_response (JInt 5)
  = Raise (Exn TypeError $"argument of type 'int' is not iterable").
Proof. reflexivity. Qed.

(** The prompt of scenario A, character for character. *)
Example prompt_A :
  build_prompt (JObj body_A) = Ok $"
You are an AI career advisor analyzing a job match. Here's the data:

JOB POSTING:
- Title: Backend Dev
- Required Skills: N/A
- Preferred Skills: N/A
- Qualifications: N/A
- Responsibilities: N/A
- Industry: N/A
- Role: N/A
- Location: N/A

YOUR PROFILE:
- Headline: Engineer
- Technical Skills: N/A
- Other Skills: N/A
- Experience: N/A
- Job Titles: N/A
- Education: N/A
- Communication Skills: N/A
- Leadership Skills: N/A
- Critical Thinking: N/A
- Collaboration: N/A
- Character: N/A
- Creativity: N/A
- Growth Mindset: N/A
- Mindfulness: N/A
- Fortitude: N/A
- City: N/A

MATCH RESULT:
- Match Percentage: 72%

MATCHING ALGORITHM COMPONENTS:
1. Required Skills (30%): Job's Required Skills matched against your Technical Skills and Soft Skills (Character, Collaboration, Communication, Creativity, Critical Thinking, Fortitude, Growth Mindset, Leadership, Mindfulness) and Other Skills
2. Preferred Skills (15%): Job's Preferred Skills matched against your Technical Skills and Other Skills
3. Other Skills (10%): Job's Required & Preferred Skills matched against your Technical Skills and Other Skills
4. Qualifications (15%): Job's Qualifications matched against your Education and Experience
5. Responsibilities (15%): Job's Key Responsibilities matched against your Experience
6. Industry (5%): Job's Industry matched against your Industry experience
7. Role (5%): Job's Role matched against your Job Titles
8. Location (5%): Job's Location matched against your City

Based on the above information and matching algorithm, provide a detailed explanation of:
1. Why your profile received a 72% match score for this job
2. Identify the strongest matching areas between your profile and the job
3. Identify skills or qualifications gaps you should work on to improve your match percentage
4. Provide 3-5 specific, actionable recommendations for how you can improve your match score

Format your response as a JSON with these keys:
- match_explanation: (string) detailed explanation text
- strengths: (array of strings) list of matching strengths
- gaps: (array of strings) list of skill/qualification gaps
- recommendations: (array of strings) list of actionable recommendations

IMPORTANT: strengths, gaps, and recommendations MUST be arrays of strings, not single strings or other formats.
".
Proof. vm_compute. reflexivity. Qed.

(** Scenario A from end to end. *)
Example scenario_A :
  exists prompt,
    build_prompt (JObj body_A) = Ok prompt
    /\ analyze_match world_A
       = ([the_request prompt],
          Ok (200%Z,
              JObj [ ($"status", JStr $"success");
                     ($"data",
                      JObj [ ($"Matching_Percentage", JInt 72);
                             ($"analysis",
                              JObj [ ($"match_explanation", JStr $"Good fit");
                                     ($"strengths",
                                      JList [JStr $"Python"; JStr $"SQL"]);
                                     ($"gaps", JList []);
                                     ($"recommendations",
                                      JList [JStr $"Learn Go"]) ]) ]) ])).
Proof. eexists. split; vm_compute; reflexivity. Qed.

(** A body that is a number is neither missing nor a mapping: the
    membership test itself raises, and the answer is 500. *)
Example number_body :
  analyze_match
    {| openai_api_key := Some $"sk-test";
       request_json := Ok (JInt 5);
       chat_completions_create := fun _ => Ok [];
       json_loads := fun _ => Raise not_json |}
  = ([], Ok (500%Z,
             JObj [($"error",
                    JStr $"argument of type 'int' is not iterable")])).
Proof. reflexivity. Qed.

(** A null [data] is a server error with or without a credential: the
    percentage is read from it after the analysis. *)
Example null_data_without_key :
  analyze_match
    {| openai_api_key := None;
       request_json := Ok (JObj [($"data", JNull)]);
       chat_completions_create := fun _ => Ok [];
       json_loads := fun _ => Raise not_json |}
  = ([], Ok (500%Z,
             JObj [($"error",
                    JStr $"'NoneType' object has no attribute 'get'")])).
Proof. reflexivity. Qed.

(** A failure of the remote call is carried inside the analysis. *)
Example upstream_failure :
  snd (analyze_match
         {| openai_api_key := Some $"sk-test";
            request_json := Ok (JObj body_A);
            chat_completions_create :=
              fun _ => Raise (Exn OtherException $"Connection error.");
            json_loads := fun _ => Raise not_json |})
  = Ok (200%Z,
        JObj [ ($"status", JStr $"success");
               ($"data",
                JObj [ ($"Matching_Percentage", JInt 72);
                       ($"analysis",
                        JObj [($"error",
                               JStr $"Error analyzing job match: Connection error.")]) ]) ]).
Proof. vm_compute. reflexivity. Qed.

End Samples.

(** * The claims at sample inputs *)

Section Instances.
#[local] Existing Instance latin1_table.

(** C1 as first stated fails: a list under a list field is returned with
    its elements untouched, None and the empty string among them. *)
Lemma list_elements_are_kept :
  normalize_analysis_response
    (JObj [($"strengths", JList [JNull; JStr []])])
  = Ok (JObj [ ($"match_explanation", JStr []);
               ($"strengths", JList [JNull; JStr []]);
               ($"gaps", JList []);
               ($"recommendations", JList []) ])
  /\ ~ nonempty_strings [JNull; JStr []].
Proof.
  split; [reflexivity|].
  intros H. inversion H as [|x l (s & Hs & _) _]. discriminate.
Qed.

Lemma list_fields_are_sequences_witness :
  In $"strengths" list_fields
  /\ exists out l,
       normalize_analysis_response decoded_A = Ok (JObj out)
       /\ dict_get out $"strengths" = Some (JList l)
       /\ ((forall l0, dict_get fields_A $"strengths" <> Some (JList l0)) ->
           nonempty_strings l)
       /\ (forall l0, dict_get fields_A $"strengths" = Some (JList l0) ->
           l = l0).
Proof.
  assert (H : In $"strengths" list_fields) by (simpl; tauto).
  split; [exact H|]. exact (list_fields_are_sequences fields_A H).
Defined.

Lemma string_field_is_split_witness :
  In $"strengths" list_fields
  /\ dict_get fields_A $"strengths" = Some (JStr $"Python;SQL")
  /\ strip $"Python;SQL" <> []
  /\ exists out,
       normalize_analysis_response decoded_A = Ok (JObj out)
       /\ dict_get out $"strengths"
          = Some (JList [JStr $"Python"; JStr $"SQL"]).
Proof.
  assert (H1 : In $"strengths" list_fields) by (simpl; tauto).
  assert (H2 : dict_get fields_A $"strengths" = Some (JStr $"Python;SQL"))
    by reflexivity.
  assert (H3 : strip $"Python;SQL" <> []) by discriminate.
  repeat split; try assumption.
  destruct (string_field_is_split fields_A H1 H2 H3) as (out & Ho & Hg & _).
  exists out. split; assumption.
Defined.

Lemma no_credential_short_circuits_witness :
  key_missing world_no_key = true
  /\ analyze_job_match world_no_key (JObj body_A)
     = ([], Ok (error_object
                  $"OpenAI API key not configured. Please set the OPENAI_API_KEY environment variable."))
  /\ analyze_match world_no_key
     = ([], Ok (200%Z,
                JObj [ ($"status", JStr $"success");
                       ($"data",
                        JObj [ ($"Matching_Percentage", JInt 72);
                               ($"analysis",
                                error_object
                                  $"OpenAI API key not configured. Please set the OPENAI_API_KEY environment variable.") ]) ])).
Proof.
  assert (H : key_missing world_no_key = true) by reflexivity.
  destruct (no_credential_short_circuits world_no_key H) as [Ha He].
  split; [exact H|]. split; [apply Ha|].
  exact (He body_A _ eq_refl eq_refl).
Defined.



Lemma non_mapping_data_is_server_error_witness :
  key_missing world_null_data = false
  /\ request_json world_null_data = Ok (JObj [($"data", JNull)])
  /\ is_dict JNull = false
  /\ analyze_match world_null_data
     = ([], Ok (500%Z,
                JObj [($"error",
                       JStr $"'NoneType' object has no attribute 'get'")])).
Proof.
  split; [reflexivity|]. split; [reflexivity|]. split; [reflexivity|].
  exact (proj2 (@non_mapping_data_is_server_error _ world_null_data
                  [($"data", JNull)] JNull eq_refl eq_refl eq_refl eq_refl)).
Defined.

Lemma parse_failure_falls_back_witness :
  key_missing world_plain_text = false
  /\ json_loads world_plain_text $"A good fit overall." = Raise not_json
  /\ exists prompt,
       build_prompt (JObj body_A) = Ok prompt
       /\ analyze_job_match world_plain_text (JObj body_A)
          = ([the_request prompt],
             Ok (JObj [ ($"match_explanation", JStr $"A good fit overall.");
                        ($"strengths", JList []);
                        ($"gaps", JList []);
                        ($"recommendations", JList []) ])).
Proof.
  split; [reflexivity|]. split; [reflexivity|].
  destruct (build_prompt (JObj body_A)) as [prompt|e] eqn:Hp;
    [|exfalso; vm_compute in Hp; discriminate].
  exists prompt. split; [reflexivity|].
  destruct (@parse_failure_falls_back _ world_plain_text (JObj body_A) prompt
              $"A good fit overall." [] not_json eq_refl Hp eq_refl eq_refl
              eq_refl) as (Ha & Hn & _).
  rewrite Ha, Hn. reflexivity.
Defined.

(** C7 as first stated fails on the count: the prompt of scenario A
    enumerates eight weighted components, not seven. *)
Lemma prompt_enumerates_eight_components :
  exists prompt,
    build_prompt (JObj body_A) = Ok prompt
    /\ weighted_components prompt
       = [ (1, $"Required Skills", 30);
           (2, $"Preferred Skills", 15);
           (3, $"Other Skills", 10);
           (4, $"Qualifications", 15);
           (5, $"Responsibilities", 15);
           (6, $"Industry", 5);
           (7, $"Role", 5);
           (8, $"Location", 5) ]
    /\ List.length (weighted_components prompt) <> 7%nat.
Proof.
  eexists. split; [vm_compute; reflexivity|].
  split; [vm_compute; reflexivity|].
  vm_compute. discriminate.
Qed.

Lemma prompt_of_match_request_witness :
  match_request body_A = true
  /\ exists prompt,
       build_prompt (JObj body_A) = Ok prompt
       /\ occurs_in (unlines algorithm_lines) prompt
       /\ occurs_in $"- Title: Backend Dev" prompt
       /\ occurs_in $"- Required Skills: N/A" prompt.
Proof.
  split; [reflexivity|].
  destruct (prompt_of_match_request body_A eq_refl)
    as (prompt & Hp & _ & Hjob & _ & _ & _ & Halg & _).
  exists prompt. repeat split; try assumption.
  - apply occurs_in_prefix with (y := [10]).
    exact (proj1 (Forall_forall _ _) Hjob ($"Title", $"JobTitle")
             (or_introl eq_refl)).
  - apply occurs_in_prefix with (y := [10]).
    exact (proj1 (Forall_forall _ _) Hjob
             ($"Required Skills", $"Required_Skills")
             (or_intror (or_introl eq_refl))).
Defined.

End Instances.

(** * Further properties *)

(** ** Trimmed parts *)

Lemma lstrip_fixed (t : pystr) :
  (forall c r, t = c :: r -> isspace c = false) -> lstrip t = t.
Proof.
  destruct t as [|c r]; [reflexivity|]. intros H. simpl.
  now rewrite (H c r eq_refl).
Qed.

Lemma strip_idempotent (s : pystr) : strip (strip s) = strip s.
Proof.
  destruct (strip_spec s) as (_ & _ & _ & _ & _ & Hhead & Hlast).
  unfold strip at 1, rstrip. rewrite (lstrip_fixed Hhead).
  rewrite lstrip_fixed; [apply rev_involutive|].
  intros c r E. apply (Hlast c (rev r)).
  rewrite <- (rev_involutive (strip s)), E. reflexivity.
Qed.

Lemma has_char_app (c : char) (a b : pystr) :
  has_char c (a ++ b) = has_char c a || has_char c b.
Proof. apply existsb_app. Qed.

Lemma has_char_strip (c : char) (p : pystr) :
  has_char c p = false -> has_char c (strip p) = false.
Proof.
  destruct (strip_spec p) as (a & b & E & _). intros H.
  rewrite E, !has_char_app in H.
  apply orb_false_iff in H as [_ H]. now apply orb_false_iff in H as [H _].
Qed.

Lemma find_delimiter (text : pystr) (sep : char) :
  find (fun sep => has_char sep text) [10; 59; 44] = Some sep ->
  spec_split text = filter nonempty (List.map strip (split sep text)).
Proof. unfold spec_split. now intros ->. Qed.

(** ** More on the normalizer *)

Section NormalizerExtras.
Context {U : UnicodeTable}.

Lemma normalized_key (d : dict) (k : pystr) :
  In k four_keys ->
  exists out,
    normalize_analysis_response (JObj d) = Ok (JObj out)
    /\ dict_get out k
       = Some (if eqb k $"match_explanation"
               then explanation_value (dict_get d k)
               else list_value (dict_get d k)).
Proof.
  intros Hk. rewrite normalize_mapping. eexists. split; [reflexivity|].
  destruct Hk as [<-|[<-|[<-|[<-|[]]]]]; reflexivity.
Qed.

Lemma normalize_mapping_shape (d : dict) (r : json) :
  normalize_analysis_response (JObj d) = Ok r -> well_shaped r.
Proof.
  rewrite normalize_mapping.
  destruct (explanation_value_is_str (dict_get d $"match_explanation"))
    as (s & ->).
  destruct (list_value_is_list (dict_get d $"strengths")) as (l1 & ->).
  destruct (list_value_is_list (dict_get d $"gaps")) as (l2 & ->).
  destruct (list_value_is_list (dict_get d $"recommendations")) as (l3 & ->).
  intros E. injection E as <-. now exists s, l1, l2, l3.
Qed.

(** X1: the explanation of the result is always a text: the input's own
    when that is a text, [str] of the input's value when it is anything
    else (a number, a list, null, a mapping). *)
Theorem explanation_is_text (d : dict) :
  exists out s,
    normalize_analysis_response (JObj d) = Ok (JObj out)
    /\ dict_get out $"match_explanation" = Some (JStr s)
    /\ (forall t, dict_get d $"match_explanation" = Some (JStr t) -> s = t)
    /\ (forall v, dict_get d $"match_explanation" = Some v ->
                  is_str v = false -> s = py_str v).
Proof.
  destruct (normalized_explanation d) as (out & Hout & Hget).
  destruct (explanation_value_is_str (dict_get d $"match_explanation"))
    as (s & Hs).
  exists out, s. rewrite Hget, Hs. repeat split; try assumption.
  - intros t E. rewrite E in Hs. simpl in Hs. congruence.
  - intros v E Hv. rewrite E in Hs.
    destruct v; try discriminate; cbn [explanation_value] in Hs; congruence.
Qed.

(** X2: a value under a list field that is neither a list nor a text
    (a number, a boolean, null, a mapping) becomes the one-element list
    holding [str] of it. *)
Theorem other_type_is_wrapped (d : dict) (f : pystr) (v : json) :
  In f list_fields ->
  dict_get d f = Some v ->
  is_list v = false -> is_str v = false ->
  exists out,
    normalize_analysis_response (JObj d) = Ok (JObj out)
    /\ dict_get out f = Some (JList [JStr (py_str v)]).
Proof.
  intros Hf Hget Hl Hs.
  destruct (normalized_list_field d Hf) as (out & Hout & Hval).
  exists out. split; [assumption|].
  now rewrite Hval, Hget, (list_value_other _ Hs Hl).
Qed.

(** X3: each of the four fields is normalized on its own: two inputs
    with the same value (or both with none) under a key give results
    with the same value under that key, whatever else they hold. *)
Theorem fields_are_independent (d d' : dict) (k : pystr) :
  In k four_keys ->
  dict_get d k = dict_get d' k ->
  exists out out',
    normalize_analysis_response (JObj d) = Ok (JObj out)
    /\ normalize_analysis_response (JObj d') = Ok (JObj out')
    /\ dict_get out k = dict_get out' k.
Proof.
  intros Hk E.
  destruct (normalized_key d Hk) as (out & Hout & Hget).
  destruct (normalized_key d' Hk) as (out' & Hout' & Hget').
  exists out, out'. repeat split; try assumption.
  now rewrite Hget, Hget', E.
Qed.

(** X4: when a non-blank text under a list field is split on a
    delimiter, every element of the result is non-empty, has no
    whitespace at either end, and does not hold that delimiter. *)
Theorem split_parts_are_clean (d : dict) (f text : pystr) (sep : char) :
  In f list_fields ->
  dict_get d f = Some (JStr text) ->
  strip text <> [] ->
  find (fun sep => has_char sep text) [10; 59; 44] = Some sep ->
  exists out l,
    normalize_analysis_response (JObj d) = Ok (JObj out)
    /\ dict_get out f = Some (JList (List.map JStr l))
    /\ Forall (fun s => s <> [] /\ strip s = s /\ has_char sep s = false) l.
Proof.
  intros Hf Hget Hblank Hfind.
  destruct (normalized_list_field d Hf) as (out & Hout & Hval).
  exists out, (spec_split text). split; [assumption|]. split.
  - rewrite Hval, Hget. cbn [list_value].
    destruct (strip text) as [|c r] eqn:Hs; [congruence|].
    cbn [nonempty]. now rewrite spec_split_sequence.
  - rewrite (find_delimiter _ Hfind). apply Forall_forall. intros s Hs.
    apply filter_In in Hs as [Hin Hne].
    apply in_map_iff in Hin as (p & <- & Hp).
    repeat split.
    + intros E. now rewrite E in Hne.
    + apply strip_idempotent.
    + apply has_char_strip.
      exact (proj1 (Forall_forall _ _) (split_parts_free sep text) p Hp).
Qed.

(** On a list or a text the membership tests decide everything: with no
    key found the first dict is returned. *)
Lemma normalize_without_keys (v : json) :
  Forall (fun k => py_in k v = Ok false) four_keys ->
  normalize_analysis_response v = Ok default_result.
Proof.
  intros H. inversion H as [|? ? H1 H']; subst.
  inversion H' as [|? ? H2 H'']; subst.
  inversion H'' as [|? ? H3 H''']; subst.
  inversion H''' as [|? ? H4 _]; subst.
  unfold normalize_analysis_response, normalize_explanation,
    normalize_list_field.
  rewrite H1. cbn [rbind]. rewrite H2. cbn [rbind]. rewrite H3.
  cbn [rbind]. rewrite H4. reflexivity.
Qed.

Lemma getitem_not_mapping (v : json) (k : pystr) :
  is_dict v = false ->
  exists e, py_getitem v k = Raise e /\ exn_type e = TypeError.
Proof. destruct v; try discriminate; intros _; eexists; split; reflexivity. Qed.

Lemma in_not_mapping (v : json) (k : pystr) :
  is_dict v = false ->
  (exists b, py_in k v = Ok b)
  \/ (exists e, py_in k v = Raise e /\ exn_type e = TypeError).
Proof.
  destruct v; try discriminate; intros _;
    first [ left; eexists; reflexivity
          | right; eexists; split; reflexivity ].
Qed.

Lemma in_scalar (v : json) (k : pystr) :
  is_scalar v = true ->
  exists e, py_in k v = Raise e /\ exn_type e = TypeError.
Proof. destruct v; try discriminate; intros _; eexists; split; reflexivity. Qed.

(** Off a mapping the normalizer gives the first dict or raises
    TypeError. *)
Lemma normalize_not_mapping (v : json) :
  is_dict v = false ->
  normalize_analysis_response v = Ok default_result
  \/ exists e, normalize_analysis_response v = Raise e
               /\ exn_type e = TypeError.
Proof.
  intros Hv.
  unfold normalize_analysis_response, normalize_explanation,
    normalize_list_field.
  destruct (in_not_mapping v $"match_explanation" Hv)
    as [([] & ->)|(e & -> & He)]; cbn [rbind];
    [ destruct (getitem_not_mapping v $"match_explanation" Hv) as (e & -> & He);
      right; exists e; now split
    | | right; exists e; now split ].
  destruct (in_not_mapping v $"strengths" Hv)
    as [([] & ->)|(e & -> & He)]; cbn [rbind];
    [ destruct (getitem_not_mapping v $"strengths" Hv) as (e & -> & He);
      right; exists e; now split
    | | right; exists e; now split ].
  destruct (in_not_mapping v $"gaps" Hv)
    as [([] & ->)|(e & -> & He)]; cbn [rbind];
    [ destruct (getitem_not_mapping v $"gaps" Hv) as (e & -> & He);
      right; exists e; now split
    | | right; exists e; now split ].
  destruct (in_not_mapping v $"recommendations" Hv)
    as [([] & ->)|(e & -> & He)]; cbn [rbind];
    [ destruct (getitem_not_mapping v $"recommendations" Hv) as (e & -> & He);
      right; exists e; now split
    | | right; exists e; now split ].
  left. reflexivity.
Qed.

(** Off a mapping, a result means no key name was found. *)
Lemma normalize_ok_no_keys (v r : json) :
  is_dict v = false ->
  normalize_analysis_response v = Ok r ->
  Forall (fun k => py_in k v = Ok false) four_keys.
Proof.
  intros Hv Hok.
  unfold normalize_analysis_response, normalize_explanation,
    normalize_list_field in Hok.
  destruct (getitem_not_mapping v $"match_explanation" Hv) as (e1 & G1 & _).
  destruct (getitem_not_mapping v $"strengths" Hv) as (e2 & G2 & _).
  destruct (getitem_not_mapping v $"gaps" Hv) as (e3 & G3 & _).
  destruct (getitem_not_mapping v $"recommendations" Hv) as (e4 & G4 & _).
  rewrite G1, G2, G3, G4 in Hok.
  destruct (py_in $"match_explanation" v) as [[]|] eqn:I1; cbn [rbind] in Hok;
    try discriminate.
  destruct (py_in $"strengths" v) as [[]|] eqn:I2; cbn [rbind] in Hok;
    try discriminate.
  destruct (py_in $"gaps" v) as [[]|] eqn:I3; cbn [rbind] in Hok;
    try discriminate.
  destruct (py_in $"recommendations" v) as [[]|] eqn:I4; cbn [rbind] in Hok;
    try discriminate.
  repeat (constructor; [assumption|]). constructor.
Qed.

(** Whatever the normalizer returns has its shape. *)
Lemma normalize_shape (v : json) (r : json) :
  normalize_analysis_response v = Ok r -> well_shaped r.
Proof.
  destruct (is_dict v) eqn:Hv.
  - destruct v; try discriminate. apply normalize_mapping_shape.
  - destruct (normalize_not_mapping v Hv) as [->|(e & -> & _)];
      [|discriminate].
    intros E. injection E as <-. now exists [], [], [], [].
Qed.

(** X5: given a decoded value that is not a mapping, the normalizer
    never returns anything taken from it: it returns the all-default
    result or raises TypeError. A scalar always raises; a list or a text
    in which none of the four key names is found gives the defaults, and
    one in which a key name is found raises. *)
Theorem normalize_off_mapping (v : json) :
  is_dict v = false ->
  (normalize_analysis_response v = Ok default_result
   \/ exists e, normalize_analysis_response v = Raise e
                /\ exn_type e = TypeError)
  /\ (is_scalar v = true ->
      exists e, normalize_analysis_response v = Raise e
                /\ exn_type e = TypeError)
  /\ (Forall (fun k => py_in k v = Ok false) four_keys ->
      normalize_analysis_response v = Ok default_result)
  /\ (Exists (fun k => py_in k v = Ok true) four_keys ->
      exists e, normalize_analysis_response v = Raise e
                /\ exn_type e = TypeError).
Proof.
  intros Hv. split; [now apply normalize_not_mapping|]. split; [|split].
  - intros Hs.
    destruct (in_scalar v $"match_explanation" Hs) as (e & E & He).
    exists e. split; [|assumption].
    unfold normalize_analysis_response, normalize_explanation. now rewrite E.
  - apply normalize_without_keys.
  - intros Hex.
    destruct (normalize_not_mapping v Hv) as [Hok|Hraise]; [|assumption].
    exfalso. apply Exists_exists in Hex as (k & Hin & Hk).
    pose proof (proj1 (Forall_forall _ _) (normalize_ok_no_keys v Hv Hok) k Hin)
      as Hno.
    congruence.
Qed.

End NormalizerExtras.

(** ** More on the analysis and the endpoint *)

Lemma try_except_miss {A} (t : trace) (e : exn) (c : exn_class)
    (handler : exn -> io A) :
  exn_class_eqb c (exn_type e) = false ->
  try_except (t, Raise e) (Some c) handler = (t, Raise e).
Proof. intros H. unfold try_except. now rewrite H. Qed.

Lemma silent_lift {A} (r : result A) : fst (lift r) = [].
Proof. reflexivity. Qed.

Lemma silent_bind {A B} (m : io A) (k : A -> io B) :
  fst m = [] -> (forall a, fst (k a) = []) -> fst (bind m k) = [].
Proof.
  destruct m as [t [a|e]]; simpl; intros -> Hk; [|reflexivity].
  specialize (Hk a). now destruct (k a).
Qed.

Lemma silent_try {A} (m : io A) (c : option exn_class) (h : exn -> io A) :
  fst m = [] -> (forall e, fst (h e) = []) -> fst (try_except m c h) = [].
Proof.
  destruct m as [t [a|e]]; simpl; intros -> Hh; [reflexivity|].
  specialize (Hh e).
  destruct c as [c|]; [destruct (exn_class_eqb c (exn_type e))|];
    try reflexivity; now destruct (h e).
Qed.

Ltac run_io :=
  cbv beta iota zeta delta [bind lift ret try_except fst snd];
  rewrite ?app_nil_r.

Section AnalysisExtras.
Context {U : UnicodeTable}.
Variable w : world.

(** The inner block sends nothing. *)
Lemma parse_block_result (resp : completion) :
  parse_block w resp = ([], snd (parse_block w resp)).
Proof.
  assert (H : fst (parse_block w resp) = []).
  { unfold parse_block.
    repeat first [ apply silent_try | apply silent_bind | apply silent_lift
                 | intro ]. }
  destruct (parse_block w resp) as [t r]. simpl in *. now subst.
Qed.

(** With a credential and a prompt, the analysis is the one call and
    then the inner block, with any failure turned into an error object. *)
Lemma analysis_with_prompt (data : json) (prompt : pystr) :
  key_missing w = false ->
  build_prompt data = Ok prompt ->
  analyze_job_match w data
  = ([the_request prompt],
     match chat_completions_create w (the_request prompt) with
     | Raise e => Ok (analysis_error e)
     | Ok resp =>
         match snd (parse_block w resp) with
         | Ok a => Ok a
         | Raise e => Ok (analysis_error e)
         end
     end).
Proof.
  intros Hkey Hprompt. unfold analyze_job_match.
  rewrite Hkey, Hprompt, bind_ok. fold (parse_block w).
  unfold create.
  destruct (chat_completions_create w (the_request prompt)) as [resp|e].
  - unfold bind. rewrite (parse_block_result resp).
    destruct (snd (parse_block w resp)); reflexivity.
  - reflexivity.
Qed.

(** What the inner block returns has the normalizer's shape. *)
Lemma parse_block_shape (resp : completion) (a : json) :
  snd (parse_block w resp) = Ok a -> well_shaped a.
Proof.
  unfold parse_block.
  destruct (first_content resp) as [c|e0]; [|run_io;
    destruct (exn_class_eqb JSONDecodeError (exn_type e0)); discriminate].
  assert (Hfb : forall r,
             normalize_analysis_response
               (JObj [ ($"match_explanation", c); ($"strengths", JList []);
                       ($"gaps", JList []); ($"recommendations", JList []) ])
             = Ok r -> well_shaped r) by (intros r; apply normalize_shape).
  rewrite !bind_ok.
  destruct (loads w c) as [v|e]; [rewrite bind_ok|rewrite bind_raise].
  - destruct (normalize_analysis_response v) as [r|e] eqn:N; run_io.
    + intros E. injection E as <-. exact (normalize_shape _ N).
    + destruct (exn_class_eqb JSONDecodeError (exn_type e));
        [|discriminate].
      cbn [app]. apply Hfb.
  - run_io.
    destruct (exn_class_eqb JSONDecodeError (exn_type e)); [|discriminate].
    cbn [app]. apply Hfb.
Qed.

(** An analysis that was returned reaches the caller in a 200 answer. *)
Lemma endpoint_of_analysis (body inner : dict) (t : trace) (a : json) :
  request_json w = Ok (JObj body) ->
  dict_get body $"data" = Some (JObj inner) ->
  analyze_job_match w (JObj body) = (t, Ok a) ->
  analyze_match w
  = (t, Ok (200%Z, envelope (get_or inner $"Matching_Percentage" (JInt 0)) a)).
Proof.
  intros Hreq Hdata Ha. unfold analyze_match.
  rewrite Hreq, bind_ok, (data_missing_with_key _ Hdata), bind_ok, Ha.
  unfold bind at 1. rewrite (percentage_of_mapping _ Hdata), bind_ok.
  run_io. reflexivity.
Qed.

(** X6: when the remote call raises, the one call was sent, the analysis
    is the object whose error is the fixed prefix followed by the
    exception's text, and the endpoint still answers 200 with the
    request's Matching_Percentage. *)
Theorem upstream_failure_is_carried
    (data : json) (prompt : pystr) (e : exn) :
  key_missing w = false ->
  build_prompt data = Ok prompt ->
  chat_completions_create w (the_request prompt) = Raise e ->
  analyze_job_match w data
  = ([the_request prompt],
     Ok (error_object ($"Error analyzing job match: " ++ exn_str e)))
  /\ (forall body inner,
        data = JObj body ->
        request_json w = Ok data ->
        dict_get body $"data" = Some (JObj inner) ->
        analyze_match w
        = ([the_request prompt],
           Ok (200%Z,
               envelope (get_or inner $"Matching_Percentage" (JInt 0))
                 (error_object
                    ($"Error analyzing job match: " ++ exn_str e))))).
Proof.
  intros Hkey Hprompt Hcreate.
  assert (Ha : analyze_job_match w data
               = ([the_request prompt], Ok (analysis_error e))).
  { now rewrite (analysis_with_prompt _ Hkey Hprompt), Hcreate. }
  split; [exact Ha|].
  intros body inner -> Hreq Hdata.
  exact (endpoint_of_analysis Hreq Hdata Ha).
Qed.

(** X7: when the completion text decodes to a mapping, the analysis is
    the normalizer's result on that mapping, after the one call; it has
    the normalizer's shape and the endpoint answers 200 with it. *)
Theorem parsed_object_is_normalized
    (data : json) (prompt text : pystr) (rest : completion) (d : dict) :
  key_missing w = false ->
  build_prompt data = Ok prompt ->
  chat_completions_create w (the_request prompt) = Ok (Some text :: rest) ->
  json_loads w text = Ok (JObj d) ->
  exists a,
    normalize_analysis_response (JObj d) = Ok a
    /\ well_shaped a
    /\ analyze_job_match w data = ([the_request prompt], Ok a)
    /\ (forall body inner,
          data = JObj body ->
          request_json w = Ok data ->
          dict_get body $"data" = Some (JObj inner) ->
          analyze_match w
          = ([the_request prompt],
             Ok (200%Z,
                 envelope (get_or inner $"Matching_Percentage" (JInt 0)) a))).
Proof.
  intros Hkey Hprompt Hcreate Hloads.
  destruct (normalize_analysis_response (JObj d)) as [a|e] eqn:N;
    [|rewrite normalize_mapping in N; discriminate].
  assert (Ha : analyze_job_match w data = ([the_request prompt], Ok a)).
  { rewrite (analysis_with_prompt _ Hkey Hprompt), Hcreate.
    unfold parse_block. cbn [first_content]. rewrite !bind_ok.
    cbn [loads]. rewrite Hloads, bind_ok, N. reflexivity. }
  exists a. split; [reflexivity|]. split; [exact (normalize_shape _ N)|].
  split; [exact Ha|].
  intros body inner -> Hreq Hdata.
  exact (endpoint_of_analysis Hreq Hdata Ha).
Qed.

(** X8: a completion with no choice, or whose first message has no
    text, is not recovered as plain text: the analysis is an error
    object, about the list index in the first case and about the type
    given to the decoder in the second. *)
Theorem missing_content_is_an_error (data : json) (prompt : pystr) :
  key_missing w = false ->
  build_prompt data = Ok prompt ->
  (chat_completions_create w (the_request prompt) = Ok [] ->
   analyze_job_match w data
   = ([the_request prompt],
      Ok (error_object
            $"Error analyzing job match: list index out of range")))
  /\ (forall rest,
        chat_completions_create w (the_request prompt) = Ok (None :: rest) ->
        analyze_job_match w data
        = ([the_request prompt],
           Ok (error_object
                 $"Error analyzing job match: the JSON object must be str, bytes or bytearray, not NoneType"))).
Proof.
  intros Hkey Hprompt. split.
  - intros Hcreate.
    now rewrite (analysis_with_prompt _ Hkey Hprompt), Hcreate.
  - intros rest Hcreate.
    now rewrite (analysis_with_prompt _ Hkey Hprompt), Hcreate.
Qed.

(** X9: once the credential is there and the prompt is built, the
    analysis never raises and exactly one call is sent; what comes back
    is a mapping of the normalizer's shape or an error object whose
    message starts with the fixed prefix. *)
Theorem analysis_never_raises (data : json) (prompt : pystr) :
  key_missing w = false ->
  build_prompt data = Ok prompt ->
  exists a,
    analyze_job_match w data = ([the_request prompt], Ok a)
    /\ (well_shaped a
        \/ exists msg,
             a = error_object ($"Error analyzing job match: " ++ msg)).
Proof.
  intros Hkey Hprompt. rewrite (analysis_with_prompt _ Hkey Hprompt).
  destruct (chat_completions_create w (the_request prompt)) as [resp|e].
  - destruct (snd (parse_block w resp)) as [a|e] eqn:P.
    + exists a. split; [reflexivity|]. left. exact (parse_block_shape _ P).
    + eexists. split; [reflexivity|]. right. now exists (exn_str e).
  - eexists. split; [reflexivity|]. right. now exists (exn_str e).
Qed.

End AnalysisExtras.

Ltac run_io_in H :=
  cbv beta iota zeta delta [bind lift ret try_except fst snd] in H;
  rewrite ?app_nil_r in H.

Section EndpointExtras.
Context {U : UnicodeTable}.
Variable w : world.

(** The analysis sends nothing or the one request. *)
Lemma analysis_cases (data : json) :
  exists t r,
    analyze_job_match w data = (t, r)
    /\ (t = [] \/ exists prompt, t = [the_request prompt]).
Proof.
  destruct (key_missing w) eqn:Hkey.
  - unfold analyze_job_match. rewrite Hkey.
    eexists _, _. split; [reflexivity|now left].
  - destruct (build_prompt data) as [prompt|e] eqn:Hp.
    + rewrite (analysis_with_prompt _ _ Hkey Hp).
      eexists _, _. split; [reflexivity|]. right. now exists prompt.
    + unfold analyze_job_match. rewrite Hkey, Hp.
      eexists _, _. split; [reflexivity|now left].
Qed.

(** Given anything but a mapping, the analysis sends nothing. *)
Lemma analysis_off_mapping (data : json) :
  is_dict data = false -> exists r, analyze_job_match w data = ([], r).
Proof.
  intros Hd. unfold analyze_job_match.
  destruct (key_missing w); [eexists; reflexivity|].
  destruct data; try discriminate; eexists; reflexivity.
Qed.

Lemma percentage_off_mapping (data : json) :
  is_dict data = false ->
  exists e,
    (d <- py_get data $"data" (JObj []) ;;
     py_get d $"Matching_Percentage" (JInt 0)) = Raise e.
Proof. destruct data; try discriminate; intros _; eexists; reflexivity. Qed.

(** X10: the endpoint never lets an exception out and sends at most the
    one request: its answer is 200 with the success envelope, or 400 or
    500 with an object holding only an error message. *)
Theorem endpoint_always_answers :
  exists t status body,
    analyze_match w = (t, Ok (status, body))
    /\ (t = [] \/ exists prompt, t = [the_request prompt])
    /\ ((status = 200%Z /\ exists p a, body = envelope p a)
        \/ ((status = 400%Z \/ status = 500%Z)
            /\ exists msg, body = error_object msg)).
Proof.
  unfold analyze_match.
  destruct (request_json w) as [data|e];
    [rewrite bind_ok|
     run_io; eexists _, _, _; split; [reflexivity|]; split; [now left|];
     right; split; [now right|eauto]].
  destruct (data_missing data) as [[]|e];
    [ rewrite bind_ok; run_io; eexists _, _, _; split; [reflexivity|];
      split; [now left|]; right; split; [now left|eauto]
    | rewrite bind_ok
    | rewrite bind_raise; run_io; eexists _, _, _; split; [reflexivity|];
      split; [now left|]; right; split; [now right|eauto] ].
  destruct (analysis_cases data) as (t1 & r1 & -> & Ht).
  destruct r1 as [a|e];
    [|run_io; eexists _, _, _; split; [reflexivity|]; split; [exact Ht|];
      right; split; [now right|eauto]].
  unfold bind at 1.
  destruct (d <- py_get data $"data" (JObj []) ;;
            py_get d $"Matching_Percentage" (JInt 0)) as [p|e];
    [rewrite bind_ok|rewrite bind_raise]; run_io;
    eexists _, _, _; (split; [reflexivity|]); (split; [exact Ht|]).
  - left. split; [reflexivity|]. now exists p, a.
  - right. split; [now right|eauto].
Qed.

Lemma data_missing_falsy (data : json) :
  truthy data = false \/ py_in $"data" data = Ok false ->
  data_missing data = Ok true.
Proof.
  unfold data_missing. intros [H|H]; [now rewrite H|].
  destruct (truthy data); [now rewrite H|reflexivity].
Qed.

(** X12: a body that is false in a test (null, false, 0, 0.0, the empty
    text, list or mapping), and a list with no element data or a text
    in which data does not occur, are rejected like a mapping without
    the key: 400 with the fixed message, nothing sent. *)
Theorem falsy_or_lacking_body_is_rejected (data : json) :
  request_json w = Ok data ->
  truthy data = false \/ py_in $"data" data = Ok false ->
  analyze_match w
  = ([], Ok (400%Z,
             error_object $"Invalid data format. Missing 'data' field.")).
Proof.
  intros Hreq H. unfold analyze_match.
  now rewrite Hreq, bind_ok, (data_missing_falsy _ H), bind_ok.
Qed.

(** X13: a body that is not a mapping never gets a success envelope
    and never causes a call: the answer is 400 or 500 with an error
    object; 400 when the body is false in a test, 500 when it is a
    number or true, on which the membership test itself raises. *)
Theorem non_mapping_body_never_succeeds (data : json) :
  request_json w = Ok data ->
  is_dict data = false ->
  exists status msg,
    analyze_match w = ([], Ok (status, error_object msg))
    /\ (status = 400%Z \/ status = 500%Z)
    /\ (truthy data = false -> status = 400%Z)
    /\ (is_scalar data = true -> truthy data = true -> status = 500%Z).
Proof.
  intros Hreq Hd. unfold analyze_match. rewrite Hreq, bind_ok.
  destruct (truthy data) eqn:Ht.
  - destruct (data_missing data) as [[]|e] eqn:M;
      [ rewrite bind_ok | rewrite bind_ok | rewrite bind_raise ].
    + run_io. eexists _, _. split; [reflexivity|]. split; [now left|].
      split; [discriminate|]. intros Hs _.
      unfold data_missing in M. rewrite Ht in M. cbn [negb] in M.
      destruct data; try discriminate Hs; cbn [py_in rbind] in M;
        discriminate M.
    + destruct (analysis_off_mapping data Hd) as (r & ->).
      destruct (percentage_off_mapping data Hd) as (e & He).
      destruct r as [a|e']; [unfold bind at 1; rewrite He, bind_raise|];
        run_io; eexists _, _; (split; [reflexivity|]);
        (split; [now right|]); (split; [discriminate|reflexivity]).
    + run_io. eexists _, _. split; [reflexivity|]. split; [now right|].
      split; [discriminate|reflexivity].
  - unfold data_missing. rewrite Ht. cbn [negb]. rewrite bind_ok. run_io.
    eexists _, _. split; [reflexivity|]. split; [now left|].
    split; [reflexivity|discriminate].
Qed.

(** X15: a 200 answer is only ever given to a body that is a mapping
    whose data is a mapping, and it holds that request's
    Matching_Percentage as it came (0 when absent) beside the analysis
    that was returned. *)
Theorem success_echoes_percentage (t : trace) (b : json) :
  analyze_match w = (t, Ok (200%Z, b)) ->
  exists body inner a,
    request_json w = Ok (JObj body)
    /\ dict_get body $"data" = Some (JObj inner)
    /\ analyze_job_match w (JObj body) = (t, Ok a)
    /\ b = envelope (get_or inner $"Matching_Percentage" (JInt 0)) a.
Proof.
  unfold analyze_match. intros H.
  destruct (request_json w) as [data|e] eqn:Hreq;
    [|run_io_in H; discriminate].
  rewrite bind_ok in H.
  destruct (data_missing data) as [[]|e] eqn:M;
    [ rewrite bind_ok in H; run_io_in H; discriminate
    | rewrite bind_ok in H
    | rewrite bind_raise in H; run_io_in H; discriminate ].
  destruct (analyze_job_match w data) as [t1 [a|e]] eqn:A;
    [|run_io_in H; discriminate].
  unfold bind at 1 in H.
  destruct (is_dict data) eqn:Hd.
  - destruct data as [| | | | | |body]; try discriminate.
    destruct (dict_get body $"data") as [v|] eqn:D;
      [|rewrite (data_missing_no_key _ D) in M; discriminate].
    destruct (is_dict v) eqn:Hv.
    + destruct v as [| | | | | |inner]; try discriminate.
      rewrite (percentage_of_mapping _ D), bind_ok in H. run_io_in H.
      exists body, inner, a. injection H as <- <-.
      split; [reflexivity|]. split; [exact D|]. split; [exact A|reflexivity].
    + assert (He : exists e,
                 (d <- py_get (JObj body) $"data" (JObj []) ;;
                  py_get d $"Matching_Percentage" (JInt 0)) = Raise e).
      { unfold py_get at 1, get_or. rewrite D. cbn [rbind].
        destruct v; try discriminate; eexists; reflexivity. }
      destruct He as (e & He). rewrite He, bind_raise in H.
      run_io_in H. discriminate.
  - destruct (percentage_off_mapping data Hd) as (e & He).
    rewrite He, bind_raise in H. run_io_in H. discriminate.
Qed.

End EndpointExtras.

(** ** More on the prompt *)

Section PromptExtras.
Context {U : UnicodeTable}.
Variable w : world.

(** Off a MatchRequest a read fails, with AttributeError. *)
Lemma build_prompt_fails (body : dict) :
  match_request body = false ->
  exists e, build_prompt (JObj body) = Raise e /\ exn_type e = AttributeError.
Proof.
  unfold match_request.
  destruct (dict_get body $"data") as [v|] eqn:D; [|discriminate].
  destruct (is_dict v) eqn:Hv.
  - destruct v as [| | | | | |inner]; try discriminate. intros H.
    unfold build_prompt. cbn [py_get rbind]. unfold get_or.
    rewrite D. cbn [py_get rbind]. unfold get_or.
    destruct (dict_get inner $"member") as [[]|];
      destruct (dict_get inner $"jobpost") as [[]|];
      try discriminate H; eexists; split; reflexivity.
  - intros _. rewrite (build_prompt_not_mapping _ D Hv).
    eexists. split; reflexivity.
Qed.

(** X11: the prompt is built exactly for bodies shaped as a
    MatchRequest. When the data, the profile or the job posting is
    present and is not a mapping, building it raises AttributeError, and
    with a credential the endpoint answers 500 with that error's text and
    sends nothing. *)
Theorem prompt_fails_off_match_request (body : dict) :
  match_request body = false ->
  exists e,
    build_prompt (JObj body) = Raise e
    /\ exn_type e = AttributeError
    /\ (key_missing w = false ->
        request_json w = Ok (JObj body) ->
        analyze_match w = ([], Ok (500%Z, error_object (exn_str e)))).
Proof.
  intros H. destruct (build_prompt_fails body H) as (e & Hb & He).
  exists e. split; [exact Hb|]. split; [exact He|].
  intros Hkey Hreq.
  assert (D : exists v, dict_get body $"data" = Some v).
  { unfold match_request in H.
    destruct (dict_get body $"data") as [v|]; [eauto|discriminate]. }
  destruct D as (v & D). unfold analyze_match.
  rewrite Hreq, bind_ok, (data_missing_with_key _ D), bind_ok.
  unfold analyze_job_match. rewrite Hkey, Hb. reflexivity.
Qed.

(** The labelled lines of a prompt that was built. *)
Lemma prompt_lines (body : dict) :
  match_request body = true ->
  exists prompt,
    build_prompt (JObj body) = Ok prompt
    /\ (forall f, In f job_fields ->
          occurs_in (shown_field (jobpost_of body) f ++ [10]) prompt)
    /\ (forall f, In f profile_fields ->
          occurs_in (shown_field (member_of body) f ++ [10]) prompt).
Proof.
  intros Hreq. rewrite (build_prompt_request _ Hreq).
  unfold prompt_text. rewrite !field_lines_mapping. cbn [rbind].
  eexists. split; [reflexivity|]. split; intros f Hf.
  - rewrite unlines_app. apply occurs_in_app_r.
    rewrite unlines_app. apply occurs_in_app_l.
    apply occurs_in_line. now apply in_map.
  - do 3 (rewrite unlines_app; apply occurs_in_app_r).
    rewrite unlines_app. apply occurs_in_app_l.
    apply occurs_in_line. now apply in_map.
Qed.

(** X14: the placeholder N/A stands for an absent key only. A field that
    is present is shown as [str] of its value whatever its type, so a
    field sent as null appears as None. *)
Theorem present_field_is_shown_as_str
    (body : dict) (f : pystr * pystr) (v : json) :
  match_request body = true ->
  (In f job_fields /\ dict_get (jobpost_of body) (snd f) = Some v)
  \/ (In f profile_fields /\ dict_get (member_of body) (snd f) = Some v) ->
  exists prompt,
    build_prompt (JObj body) = Ok prompt
    /\ occurs_in ($"- " ++ fst f ++ $": " ++ py_str v ++ [10]) prompt
    /\ (v = JNull -> occurs_in ($"- " ++ fst f ++ $": None" ++ [10]) prompt).
Proof.
  intros Hreq Hf.
  destruct (prompt_lines body Hreq) as (prompt & Hp & Hjob & Hprofile).
  assert (Hocc : occurs_in ($"- " ++ fst f ++ $": " ++ py_str v ++ [10]) prompt).
  { destruct Hf as [[Hin Hget]|[Hin Hget]].
    - specialize (Hjob f Hin). unfold shown_field, get_or in Hjob.
      rewrite Hget in Hjob. now rewrite <- !app_assoc in Hjob.
    - specialize (Hprofile f Hin). unfold shown_field, get_or in Hprofile.
      rewrite Hget in Hprofile. now rewrite <- !app_assoc in Hprofile. }
  exists prompt. split; [exact Hp|]. split; [exact Hocc|].
  intros ->. exact Hocc.
Qed.

End PromptExtras.

(** * The further properties at sample inputs *)

Section MoreInstances.
#[local] Existing Instance latin1_table.

Lemma other_type_is_wrapped_witness :
  In $"gaps" list_fields
  /\ dict_get [($"gaps", JInt 5)] $"gaps" = Some (JInt 5)
  /\ exists out,
       normalize_analysis_response (JObj [($"gaps", JInt 5)]) = Ok (JObj out)
       /\ dict_get out $"gaps" = Some (JList [JStr $"5"]).
Proof.
  assert (H : In $"gaps" list_fields) by (simpl; tauto).
  split; [exact H|]. split; [reflexivity|].
  exact (@other_type_is_wrapped _ [($"gaps", JInt 5)] $"gaps" (JInt 5)
           H eq_refl eq_refl eq_refl).
Defined.

Lemma fields_are_independent_witness :
  In $"strengths" four_keys
  /\ dict_get fields_A $"strengths"
     = dict_get [($"note", JInt 1); ($"strengths", JStr $"Python;SQL")]
         $"strengths"
  /\ exists out out',
       normalize_analysis_response (JObj fields_A) = Ok (JObj out)
       /\ normalize_analysis_response
            (JObj [($"note", JInt 1); ($"strengths", JStr $"Python;SQL")])
          = Ok (JObj out')
       /\ dict_get out $"strengths" = dict_get out' $"strengths".
Proof.
  assert (H : In $"strengths" four_keys) by (simpl; tauto).
  split; [exact H|]. split; [reflexivity|].
  exact (@fields_are_independent _ fields_A
           [($"note", JInt 1); ($"strengths", JStr $"Python;SQL")]
           $"strengths" H eq_refl).
Defined.

Lemma split_parts_are_clean_witness :
  In $"strengths" list_fields
  /\ strip $"Python;SQL" <> []
  /\ find (fun sep => has_char sep $"Python;SQL") [10; 59; 44] = Some 59
  /\ exists out l,
       normalize_analysis_response (JObj fields_A) = Ok (JObj out)
       /\ dict_get out $"strengths" = Some (JList (List.map JStr l))
       /\ Forall (fun s => s <> [] /\ strip s = s /\ has_char 59 s = false) l.
Proof.
  assert (H1 : In $"strengths" list_fields) by (simpl; tauto).
  assert (H2 : strip $"Python;SQL" <> []) by discriminate.
  split; [exact H1|]. split; [exact H2|]. split; [reflexivity|].
  exact (@split_parts_are_clean _ fields_A $"strengths" $"Python;SQL" 59
           H1 eq_refl H2 eq_refl).
Defined.

Lemma normalize_off_mapping_witness :
  is_dict (JInt 5) = false
  /\ exists e, normalize_analysis_response (JInt 5) = Raise e
               /\ exn_type e = TypeError.
Proof.
  split; [reflexivity|].
  exact (proj1 (proj2 (@normalize_off_mapping _ (JInt 5) eq_refl)) eq_refl).
Defined.

Lemma upstream_failure_is_carried_witness :
  key_missing world_unreachable = false
  /\ exists prompt,
       build_prompt (JObj body_A) = Ok prompt
       /\ analyze_job_match world_unreachable (JObj body_A)
          = ([the_request prompt],
             Ok (error_object
                   $"Error analyzing job match: Connection error.")).
Proof.
  split; [reflexivity|].
  destruct (build_prompt (JObj body_A)) as [prompt|e] eqn:Hp;
    [|exfalso; vm_compute in Hp; discriminate].
  exists prompt. split; [reflexivity|].
  exact (proj1 (@upstream_failure_is_carried _ world_unreachable
                  (JObj body_A) prompt
                  (Exn OtherException $"Connection error.")
                  eq_refl Hp eq_refl)).
Defined.

Lemma parsed_object_is_normalized_witness :
  key_missing world_A = false
  /\ json_loads world_A text_A = Ok (JObj fields_A)
  /\ exists prompt a,
       build_prompt (JObj body_A) = Ok prompt
       /\ normalize_analysis_response (JObj fields_A) = Ok a
       /\ analyze_job_match world_A (JObj body_A)
          = ([the_request prompt], Ok a).
Proof.
  split; [reflexivity|]. split; [vm_compute; reflexivity|].
  destruct (build_prompt (JObj body_A)) as [prompt|e] eqn:Hp;
    [|exfalso; vm_compute in Hp; discriminate].
  assert (Hl : json_loads world_A text_A = Ok (JObj fields_A))
    by (vm_compute; reflexivity).
  destruct (@parsed_object_is_normalized _ world_A (JObj body_A) prompt
              text_A [] fields_A eq_refl Hp eq_refl Hl)
    as (a & Hn & _ & Ha & _).
  exists prompt, a. split; [reflexivity|]. split; assumption.
Defined.

Lemma missing_content_is_an_error_witness :
  key_missing world_no_choice = false
  /\ exists prompt,
       build_prompt (JObj body_A) = Ok prompt
       /\ chat_completions_create world_no_choice (the_request prompt) = Ok []
       /\ analyze_job_match world_no_choice (JObj body_A)
          = ([the_request prompt],
             Ok (error_object
                   $"Error analyzing job match: list index out of range")).
Proof.
  split; [reflexivity|].
  destruct (build_prompt (JObj body_A)) as [prompt|e] eqn:Hp;
    [|exfalso; vm_compute in Hp; discriminate].
  exists prompt. split; [reflexivity|]. split; [reflexivity|].
  exact (proj1 (@missing_content_is_an_error _ world_no_choice
                  (JObj body_A) prompt eq_refl Hp) eq_refl).
Defined.

Lemma analysis_never_raises_witness :
  key_missing world_A = false
  /\ exists prompt a,
       build_prompt (JObj body_A) = Ok prompt
       /\ analyze_job_match world_A (JObj body_A)
          = ([the_request prompt], Ok a).
Proof.
  split; [reflexivity|].
  destruct (build_prompt (JObj body_A)) as [prompt|e] eqn:Hp;
    [|exfalso; vm_compute in Hp; discriminate].
  destruct (@analysis_never_raises _ world_A (JObj body_A) prompt eq_refl Hp)
    as (a & Ha & _).
  exists prompt, a. split; [reflexivity|exact Ha].
Defined.

Lemma prompt_fails_off_match_request_witness :
  match_request body_null_member = false
  /\ key_missing world_null_member = false
  /\ exists e,
       build_prompt (JObj body_null_member) = Raise e
       /\ exn_type e = AttributeError
       /\ analyze_match world_null_member
          = ([], Ok (500%Z, error_object (exn_str e))).
Proof.
  split; [reflexivity|]. split; [reflexivity|].
  destruct (@prompt_fails_off_match_request _ world_null_member
              body_null_member eq_refl) as (e & Hb & He & Hm).
  exists e. split; [exact Hb|]. split; [exact He|].
  exact (Hm eq_refl eq_refl).
Defined.

Lemma falsy_or_lacking_body_is_rejected_witness :
  request_json world_empty_list = Ok (JList [])
  /\ truthy (JList []) = false
  /\ analyze_match world_empty_list
     = ([], Ok (400%Z,
                error_object $"Invalid data format. Missing 'data' field.")).
Proof.
  split; [reflexivity|]. split; [reflexivity|].
  exact (@falsy_or_lacking_body_is_rejected _ world_empty_list (JList [])
           eq_refl (or_introl eq_refl)).
Defined.

Lemma non_mapping_body_never_succeeds_witness :
  request_json world_list_body = Ok (JList [JStr $"data"])
  /\ is_dict (JList [JStr $"data"]) = false
  /\ exists status msg,
       analyze_match world_list_body = ([], Ok (status, error_object msg))
       /\ (status = 400%Z \/ status = 500%Z).
Proof.
  split; [reflexivity|]. split; [reflexivity|].
  destruct (@non_mapping_body_never_succeeds _ world_list_body
              (JList [JStr $"data"]) eq_refl eq_refl)
    as (status & msg & Ha & Hs & _).
  exists status, msg. split; assumption.
Defined.

Lemma present_field_is_shown_as_str_witness :
  match_request body_null_title = true
  /\ In ($"Title", $"JobTitle") job_fields
  /\ dict_get (jobpost_of body_null_title) $"JobTitle" = Some JNull
  /\ exists prompt,
       build_prompt (JObj body_null_title) = Ok prompt
       /\ occurs_in ($"- Title: None" ++ [10]) prompt.
Proof.
  assert (Hin : In ($"Title", $"JobTitle") job_fields) by (simpl; tauto).
  split; [reflexivity|]. split; [exact Hin|]. split; [reflexivity|].
  destruct (@present_field_is_shown_as_str _ body_null_title
              ($"Title", $"JobTitle") JNull eq_refl
              (or_introl (conj Hin eq_refl)))
    as (prompt & Hp & _ & Hnull).
  exists prompt. split; [exact Hp|]. exact (Hnull eq_refl).
Defined.

Lemma success_echoes_percentage_witness :
  exists t b,
    analyze_match world_A = (t, Ok (200%Z, b))
    /\ exists body inner a,
         request_json world_A = Ok (JObj body)
         /\ dict_get body $"data" = Some (JObj inner)
         /\ analyze_job_match world_A (JObj body) = (t, Ok a)
         /\ b = envelope (get_or inner $"Matching_Percentage" (JInt 0)) a.
Proof.
  destruct (analyze_match world_A) as [t [[status b]|e]] eqn:H;
    [|exfalso; vm_compute in H; discriminate].
  assert (Hs : status = 200%Z).
  { vm_compute in H. now injection H as _ <- _. }
  subst status. exists t, b. split; [reflexivity|].
  exact (success_echoes_percentage world_A H).
Defined.

End MoreInstances.
